(** * Sunrise shop ([coreapp]): catalogue, product validation and cart

  A shallow embedding of [coreapp/models.py] and [coreapp/views.py].
  Python objects become records, the database becomes a record of tables
  that every operation threads explicitly, and a raised exception becomes
  the [Raise] outcome of a state-and-exception monad.  A raised exception
  keeps the writes made before it: the views run in Django's autocommit
  mode, nothing in the sources opens a transaction.  What the sources
  leave to their libraries is modelled where an outcome depends on it:
  the constraints the database holds a saved row to, the order in which
  it returns the rows of a query without [order_by], and the size of
  image Pillow refuses to open. *)

From stdpp Require Import base list strings gmap sorting.
From Stdlib Require Import ZArith Lia.

Open Scope Z_scope.

(** ** The Python side: exceptions, dynamic values, [sorted] *)

Module Python.

(** The exceptions the modelled code can raise.  The two resolution
    errors are the classes declared in [models.py]; their message strings
    play no role and are left out.  [DoesNotExist] and
    [MultipleObjectsReturned] carry the name of the model class they
    belong to.  [DecompressionBombError] is Pillow's. *)
Inductive exn :=
| MinResolutionErrorException
| MaxResolutionErrorException
| KeyError (key : string)
| NameError (name : string)
| AttributeError (attr : string)
| TypeError
| ValueError
| FieldError (field : string)
| IntegrityError
| DoesNotExist (model : string)
| MultipleObjectsReturned (model : string)
| Http404
| DecompressionBombError.

Inductive result (A : Type) :=
| Ok (a : A)
| Raise (e : exn).
Arguments Ok {A} a.
Arguments Raise {A} e.

(** Values of a Python dict row, of an attribute read or of a name;
    [VObject] stands for a class or a function, known by its name. *)
Inductive value :=
| VNone
| VInt (n : Z)
| VStr (s : string)
| VBool (b : bool)
| VObject (name : string).

(** [if v:] on a value. *)
Definition is_true (v : value) : bool :=
  match v with
  | VNone => false
  | VInt n => negb (n =? 0)
  | VStr s => negb (String.eqb s "")
  | VBool b => b
  | VObject _ => true
  end.

(** The integer an integer field can take from a value. *)
Definition as_int (v : value) : result Z :=
  match v with
  | VInt n => Ok n
  | VBool b => Ok (Z.b2z b)
  | _ => Raise TypeError
  end.

(** [if s:] on an optional string: [None] and [''] are falsy. *)
Definition truthy (s : option string) : bool :=
  match s with
  | None => false
  | Some s => negb (String.eqb s "")
  end.

(** [s.startswith(p)] *)
Definition startswith (s p : string) : bool := String.prefix p s.

(** [x in xs] for a tuple of strings. *)
Definition contains (xs : list string) (x : string) : bool :=
  bool_decide (x ∈ xs).

(** [sorted(xs, key=key, reverse=True)]: a stable sort into descending
    key order; elements with equal keys keep their relative order.  The
    element inserted is the earlier one, so it passes only the elements
    whose key is strictly greater. *)
Fixpoint insert_desc {A} (key : A → Z) (x : A) (ys : list A) : list A :=
  match ys with
  | [] => [x]
  | y :: ys' =>
      if bool_decide (key x < key y) then y :: insert_desc key x ys'
      else x :: ys
  end.

Definition sorted_reverse {A} (key : A → Z) (xs : list A) : list A :=
  foldr (insert_desc key) [] xs.

(** State and exceptions. *)
Definition M (S A : Type) : Type := S → result A * S.

Definition ret {S A} (a : A) : M S A := λ st, (Ok a, st).
Definition raise {S A} (e : exn) : M S A := λ st, (Raise e, st).
Definition bind {S A B} (m : M S A) (k : A → M S B) : M S B :=
  λ st, match m st with
        | (Ok a, st') => k a st'
        | (Raise e, st') => (Raise e, st')
        end.
Definition lift {S A} (r : result A) : M S A := λ st, (r, st).
Definition gets {S A} (f : S → A) : M S A := λ st, (Ok (f st), st).
Definition modify {S} (f : S → S) : M S unit := λ st, (Ok tt, f st).

#[global] Instance M_ret {S} : MRet (M S) := λ A, ret.
#[global] Instance M_bind {S} : MBind (M S) := λ A B k m, bind m k.

(** [d[k]] on a dict with string keys. *)
Definition getitem {V} (d : gmap string V) (k : string) : result V :=
  match d !! k with
  | Some v => Ok v
  | None => Raise (KeyError k)
  end.

(** The exception of an outcome, if any. *)
Definition raised {A} (r : result A) : option exn :=
  match r with
  | Ok _ => None
  | Raise e => Some e
  end.

End Python.
Import Python.

(** ** models.py *)

Module Models.

(** *** Tables and instances

    A table keeps its rows in insertion order, each under its primary
    key.  An instance is a row that may not have been saved yet: its
    [pk] is [None] until the first save. *)
Definition table (A : Type) : Type := list (Z * A).

Record instance (A : Type) := Instance { pk : option Z; fields : A }.
Arguments Instance {A} pk fields.
Arguments pk {A} i.
Arguments fields {A} i.

(** *** The columns of each model *)

Record ContentType := { app_label : string; model : string }.

Record Category := { name : string; category_slug : string }.

(** What [Image.open] reads from the stored file: pixel height and
    width; [size] is the length of the file in bytes. *)
Record ImageFile := { height : Z; width : Z; size : Z }.

(** The abstract base [Product].  [category], [image] and [price] are
    optional in memory: a record made from a slug alone has none of
    them.  [price] is a decimal with two places, kept in hundredths. *)
Record Product := {
  category : option Z;
  title : string;
  slug : string;
  image : option ImageFile;
  description : option string;
  price : option Z
}.

Record NoteBook := {
  notebook_product : Product;
  notebook_diagonal : string;
  notebook_display_type : string;
  processor_freq : string;
  notebook_ram : string;
  video : string
}.

Record Smartphone := {
  smartphone_product : Product;
  smartphone_diagonal : string;
  smartphone_display_type : string;
  bat_volume : string;
  smartphone_ram : string;
  sd : bool;
  main_camera : string;
  front_camera : string
}.

Record Customer := { user : Z; phone : string }.

Record Cart := {
  owner : Z;
  total_products : Z;
  total_price : Z;
  in_order : bool;
  for_anonymous_user : bool
}.

Record CartProduct := {
  cartproduct_user : Z;
  cart : Z;
  content_type : Z;
  object_id : Z;
  quantity : Z;
  cartproduct_total_price : Z
}.

(** *** The database *)
Record Store := {
  django_content_type : table ContentType;
  coreapp_category : table Category;
  coreapp_notebook : table NoteBook;
  coreapp_smartphone : table Smartphone;
  coreapp_customer : table Customer;
  coreapp_cart : table Cart;
  coreapp_cartproduct : table CartProduct;
  (** the many-to-many [Cart.products]: (cart id, cart product id) *)
  coreapp_cart_products : list (Z * Z);
  (** the order in which the engine hands out the categories to a query
      that has no [order_by]: by ascending key, rows of equal key in
      table order.  The key is the engine's, not the program's: no
      operation of the sources reads or writes it. *)
  category_scan : Z * Category → Z
}.

Definition DB : Type → Type := M Store.

(** *** What the database refuses

    A save that reaches the database can still fail there: the engine
    checks the constraints of the table, a [unique] column, [NOT NULL] on
    every column not declared [null=True], the foreign keys (in
    autocommit mode the statement is its own transaction, so a key
    without a row fails the statement) and the sign of a
    [PositiveIntegerField]; a row that breaks one raises
    [IntegrityError].  Declared lengths ([max_length], [max_digits]) are
    not among these constraints: what becomes of a longer value is the
    affair of the backend and is left out. *)

(** Another row, one whose key is not [pk], holds [s] in column [f]. *)
Definition taken {A} (f : A → string) (t : list (Z * A)) (pk : option Z)
    (s : string) : bool :=
  existsb (λ r, negb (bool_decide (Some r.1 = pk)) && String.eqb (f r.2) s) t.

Definition has_row {A} (t : list (Z * A)) (k : Z) : bool :=
  bool_decide (k ∈ t.*1).

Definition integrity (broken : bool) : option exn :=
  if broken then Some IntegrityError else None.

(** The columns of [Product]: [slug] is unique in the table of the
    concrete class, [category] and [price] are [NOT NULL], [category]
    is a foreign key. *)
Definition product_refusal (st : Store) (others : list (Z * Product))
    (pk : option Z) (p : Product) : option exn :=
  integrity
    match category p, price p with
    | Some c, Some _ =>
        negb (has_row (coreapp_category st) c)
        || taken slug others pk (slug p)
    | _, _ => true
    end.

(** *** [models.Model]: what every model class shares: a name and a
    table of its own, which [set_table] replaces, and the checks the
    database layer makes on a row of that table: [refusal] is the
    exception a save of the instance ends in there, if any. *)
Class Model (A : Type) := {
  model_name : string;
  get_table : Store → table A;
  set_table : table A → Store → Store;
  get_set_table : ∀ t st, get_table (set_table t st) = t;
  refusal : Store → instance A → option exn
}.
Arguments model_name A {_}.

#[global] Instance Category_Model : Model Category := {|
  model_name := "category";
  get_table := coreapp_category;
  set_table t st :=
    {| django_content_type := django_content_type st;
       coreapp_category := t;
       coreapp_notebook := coreapp_notebook st;
       coreapp_smartphone := coreapp_smartphone st;
       coreapp_customer := coreapp_customer st;
       coreapp_cart := coreapp_cart st;
       coreapp_cartproduct := coreapp_cartproduct st;
       coreapp_cart_products := coreapp_cart_products st;
       category_scan := category_scan st |};
  get_set_table _ _ := eq_refl;
  (* [slug = SlugField(unique=True)] *)
  refusal st self :=
    integrity (taken category_slug (coreapp_category st) (pk self)
                 (category_slug (fields self)))
|}.

#[global] Instance NoteBook_Model : Model NoteBook := {|
  model_name := "notebook";
  get_table := coreapp_notebook;
  set_table t st :=
    {| django_content_type := django_content_type st;
       coreapp_category := coreapp_category st;
       coreapp_notebook := t;
       coreapp_smartphone := coreapp_smartphone st;
       coreapp_customer := coreapp_customer st;
       coreapp_cart := coreapp_cart st;
       coreapp_cartproduct := coreapp_cartproduct st;
       coreapp_cart_products := coreapp_cart_products st;
       category_scan := category_scan st |};
  get_set_table _ _ := eq_refl;
  refusal st self :=
    product_refusal st
      ((λ r, (r.1, notebook_product r.2)) <$> coreapp_notebook st)
      (pk self) (notebook_product (fields self))
|}.

#[global] Instance Smartphone_Model : Model Smartphone := {|
  model_name := "smartphone";
  get_table := coreapp_smartphone;
  set_table t st :=
    {| django_content_type := django_content_type st;
       coreapp_category := coreapp_category st;
       coreapp_notebook := coreapp_notebook st;
       coreapp_smartphone := t;
       coreapp_customer := coreapp_customer st;
       coreapp_cart := coreapp_cart st;
       coreapp_cartproduct := coreapp_cartproduct st;
       coreapp_cart_products := coreapp_cart_products st;
       category_scan := category_scan st |};
  get_set_table _ _ := eq_refl;
  refusal st self :=
    product_refusal st
      ((λ r, (r.1, smartphone_product r.2)) <$> coreapp_smartphone st)
      (pk self) (smartphone_product (fields self))
|}.

#[global] Instance Customer_Model : Model Customer := {|
  model_name := "customer";
  get_table := coreapp_customer;
  set_table t st :=
    {| django_content_type := django_content_type st;
       coreapp_category := coreapp_category st;
       coreapp_notebook := coreapp_notebook st;
       coreapp_smartphone := coreapp_smartphone st;
       coreapp_customer := t;
       coreapp_cart := coreapp_cart st;
       coreapp_cartproduct := coreapp_cartproduct st;
       coreapp_cart_products := coreapp_cart_products st;
       category_scan := category_scan st |};
  get_set_table _ _ := eq_refl;
  (* [user] refers to a table of [django.contrib.auth], which is not
     modelled; [phone] and [address] take any string *)
  refusal st self := None
|}.

#[global] Instance Cart_Model : Model Cart := {|
  model_name := "cart";
  get_table := coreapp_cart;
  set_table t st :=
    {| django_content_type := django_content_type st;
       coreapp_category := coreapp_category st;
       coreapp_notebook := coreapp_notebook st;
       coreapp_smartphone := coreapp_smartphone st;
       coreapp_customer := coreapp_customer st;
       coreapp_cart := t;
       coreapp_cartproduct := coreapp_cartproduct st;
       coreapp_cart_products := coreapp_cart_products st;
       category_scan := category_scan st |};
  get_set_table _ _ := eq_refl;
  refusal st self :=
    integrity (negb (has_row (coreapp_customer st) (owner (fields self)))
               || bool_decide (total_products (fields self) < 0))
|}.

#[global] Instance CartProduct_Model : Model CartProduct := {|
  model_name := "cartproduct";
  get_table := coreapp_cartproduct;
  set_table t st :=
    {| django_content_type := django_content_type st;
       coreapp_category := coreapp_category st;
       coreapp_notebook := coreapp_notebook st;
       coreapp_smartphone := coreapp_smartphone st;
       coreapp_customer := coreapp_customer st;
       coreapp_cart := coreapp_cart st;
       coreapp_cartproduct := t;
       coreapp_cart_products := coreapp_cart_products st;
       category_scan := category_scan st |};
  get_set_table _ _ := eq_refl;
  refusal st self :=
    integrity
      (negb (has_row (coreapp_customer st) (cartproduct_user (fields self)))
       || negb (has_row (coreapp_cart st) (cart (fields self)))
       || negb (has_row (django_content_type st)
                  (content_type (fields self)))
       || bool_decide (object_id (fields self) < 0)
       || bool_decide (quantity (fields self) < 0))
|}.

#[global] Instance ContentType_Model : Model ContentType := {|
  model_name := "contenttype";
  get_table := django_content_type;
  set_table t st :=
    {| django_content_type := t;
       coreapp_category := coreapp_category st;
       coreapp_notebook := coreapp_notebook st;
       coreapp_smartphone := coreapp_smartphone st;
       coreapp_customer := coreapp_customer st;
       coreapp_cart := coreapp_cart st;
       coreapp_cartproduct := coreapp_cartproduct st;
       coreapp_cart_products := coreapp_cart_products st;
       category_scan := category_scan st |};
  get_set_table _ _ := eq_refl;
  (* [unique_together = (app_label, model)] *)
  refusal st self :=
    integrity
      (existsb (λ r, negb (bool_decide (Some r.1 = pk self))
                     && String.eqb (app_label r.2) (app_label (fields self))
                     && String.eqb (model r.2) (model (fields self)))
         (django_content_type st))
|}.

(** The manager's queries.  [filter] keeps table order; [get] wants
    exactly one row. *)
Definition objects_all (A : Type) `{Model A} : DB (table A) :=
  gets get_table.

Definition objects_filter (A : Type) `{Model A} (p : Z * A → bool)
  : DB (table A) :=
  gets (λ st, List.filter p (get_table st)).

Definition get_one (A : Type) `{Model A} (rows : table A)
  : result (Z * A) :=
  match rows with
  | [] => Raise (DoesNotExist (model_name A))
  | [r] => Ok r
  | _ :: _ :: _ => Raise (MultipleObjectsReturned (model_name A))
  end.

Definition objects_get (A : Type) `{Model A} (p : Z * A → bool)
  : DB (Z * A) :=
  rows ← objects_filter A p; lift (get_one A rows).

(** [Model.save]: an instance without a primary key is inserted under
    the next key of its table; one with a key replaces the row of that
    key, or is inserted under it when there is none.  The instance comes
    back with its key set.  A row the database layer refuses is not
    written: the save raises and the table stays as it was. *)
Definition next_pk {A} (t : table A) : Z :=
  1 + foldr (λ r acc, Z.max r.1 acc) 0 t.

Fixpoint replace_row {A} (k : Z) (x : A) (t : table A) : table A :=
  match t with
  | [] => []
  | r :: t' =>
      if bool_decide (r.1 = k) then (k, x) :: t'
      else r :: replace_row k x t'
  end.

Definition has_pk {A} (k : Z) (t : table A) : bool :=
  bool_decide (k ∈ t.*1).

Definition write_row {A} (self : instance A) (t : table A) : Z * table A :=
  match pk self with
  | Some k =>
      if has_pk k t then (k, replace_row k (fields self) t)
      else (k, t ++ [(k, fields self)])
  | None =>
      let k := next_pk t in (k, t ++ [(k, fields self)])
  end.

Definition Model_save {A} `{Model A} (self : instance A)
  : DB (instance A) :=
  refused ← gets (λ st, refusal st self);
  match refused with
  | Some e => raise e
  | None =>
      t ← gets get_table;
      let '(k, t') := write_row self t in
      _ ← modify (set_table t');
      mret (Instance (Some k) (fields self))
  end.

(** *** [Product] and its two concrete classes *)
Class ProductModel (A : Type) `{Model A} := {
  product : A → Product;
  (** an instance built from a slug alone, as [Class(slug=...)] does *)
  from_slug : string → A
}.

Definition bare_product (s : string) : Product :=
  {| category := None; title := ""; slug := s; image := None;
     description := None; price := None |}.

#[global] Instance NoteBook_Product : ProductModel NoteBook := {|
  product := notebook_product;
  from_slug s :=
    {| notebook_product := bare_product s; notebook_diagonal := "";
       notebook_display_type := ""; processor_freq := "";
       notebook_ram := ""; video := "" |}
|}.

#[global] Instance Smartphone_Product : ProductModel Smartphone := {|
  product := smartphone_product;
  from_slug s :=
    {| smartphone_product := bare_product s; smartphone_diagonal := "";
       smartphone_display_type := ""; bat_volume := "";
       smartphone_ram := ""; sd := true; main_camera := "";
       front_camera := "" |}
|}.

Definition MIN_RESOLUTION : Z * Z := (400, 400).
Definition MAX_RESOLUTION : Z * Z := (800, 800).
Definition MAX_IMAGE_SIZE : Z := 3145728.

(** Pillow's guard against decompression bombs: [Image.open] refuses
    an image of more than twice [MAX_IMAGE_PIXELS] pixels. *)
Definition MAX_IMAGE_PIXELS : Z := 89478485.

Definition decompression_bomb (img : ImageFile) : bool :=
  bool_decide (Z.max 1 (width img) * Z.max 1 (height img)
               > 2 * MAX_IMAGE_PIXELS).

(** [Image.open(image)]: an image field without a file cannot be read
    (Django's [FieldFile] raises [ValueError]); a file of too many
    pixels is refused once its header is read, before the caller sees
    its height and width. *)
Definition Image_open (image : option ImageFile) : result ImageFile :=
  match image with
  | Some img =>
      if decompression_bomb img then Raise DecompressionBombError
      else Ok img
  | None => Raise ValueError
  end.

(** [Product.save].  Both comparisons of a check use the height bound,
    as the source does. *)
Definition Product_save {A} `{ProductModel A} (self : instance A)
  : DB (instance A) :=
  let image := image (product (fields self)) in
  img ← lift (Image_open image);
  let '(min_height, min_width) := MIN_RESOLUTION in
  let '(max_height, max_width) := MAX_RESOLUTION in
  if bool_decide (height img < min_height)
     || bool_decide (width img < min_height)
  then raise MinResolutionErrorException
  else if bool_decide (height img > max_height)
          || bool_decide (width img > max_height)
  then raise MaxResolutionErrorException
  else Model_save self.

(** *** Model classes at run time

    A content type names a model class; the objects of different classes
    meet in one list on the main page, so they share the type [Obj]. *)
Inductive ModelClass :=
| NoteBookClass
| SmartphoneClass
| CategoryClass
| CustomerClass
| CartClass
| CartProductClass.

Inductive Obj :=
| ONoteBook (r : Z * NoteBook)
| OSmartphone (r : Z * Smartphone)
| OCategory (r : Z * Category)
| OCustomer (r : Z * Customer)
| OCart (r : Z * Cart)
| OCartProduct (r : Z * CartProduct).

(** [cls._meta.model_name] *)
Definition meta_model_name (c : ModelClass) : string :=
  match c with
  | NoteBookClass => model_name NoteBook
  | SmartphoneClass => model_name Smartphone
  | CategoryClass => model_name Category
  | CustomerClass => model_name Customer
  | CartClass => model_name Cart
  | CartProductClass => model_name CartProduct
  end.

(** [x.__class__] *)
Definition class_of (x : Obj) : ModelClass :=
  match x with
  | ONoteBook _ => NoteBookClass
  | OSmartphone _ => SmartphoneClass
  | OCategory _ => CategoryClass
  | OCustomer _ => CustomerClass
  | OCart _ => CartClass
  | OCartProduct _ => CartProductClass
  end.

Definition obj_pk (x : Obj) : Z :=
  match x with
  | ONoteBook r => r.1
  | OSmartphone r => r.1
  | OCategory r => r.1
  | OCustomer r => r.1
  | OCart r => r.1
  | OCartProduct r => r.1
  end.

Definition coreapp_models : list ModelClass :=
  [NoteBookClass; SmartphoneClass; CategoryClass; CustomerClass; CartClass;
   CartProductClass].

(** [ContentType.model_class()]: the class registered under the row's
    app label and model name, [None] when there is none.  Only the models
    of [coreapp] are part of this development. *)
Definition model_class (ct : ContentType) : option ModelClass :=
  if String.eqb (app_label ct) "coreapp"
  then List.find (λ c, String.eqb (meta_model_name c) (model ct))
         coreapp_models
  else None.

(** [.order_by('-id')] and [[:n]] on the rows of a table. *)
Definition order_by_desc_id {A} (t : table A) : table A :=
  sorted_reverse fst t.

Definition slice {A} (n : nat) (t : list A) : list A := take n t.

(** [cls._base_manager.all().order_by('-id')[:5]] *)
Definition latest_of_class (c : ModelClass) : DB (list Obj) :=
  match c with
  | NoteBookClass =>
      t ← objects_all NoteBook;
      mret (ONoteBook <$> slice 5 (order_by_desc_id t))
  | SmartphoneClass =>
      t ← objects_all Smartphone;
      mret (OSmartphone <$> slice 5 (order_by_desc_id t))
  | CategoryClass =>
      t ← objects_all Category;
      mret (OCategory <$> slice 5 (order_by_desc_id t))
  | CustomerClass =>
      t ← objects_all Customer;
      mret (OCustomer <$> slice 5 (order_by_desc_id t))
  | CartClass =>
      t ← objects_all Cart;
      mret (OCart <$> slice 5 (order_by_desc_id t))
  | CartProductClass =>
      t ← objects_all CartProduct;
      mret (OCartProduct <$> slice 5 (order_by_desc_id t))
  end.

(** *** [LatestProductManager] *)

(** The [for ct_model in ct_models] loop: [products] grows by the latest
    five objects of each content type in turn.  A content type without a
    model class yields [None], on which [._base_manager] fails. *)
Fixpoint extend_with_latest (ct_models : table ContentType)
    (products : list Obj) : DB (list Obj) :=
  match ct_models with
  | [] => mret products
  | ct_model :: rest =>
      match model_class ct_model.2 with
      | None => raise (AttributeError "_base_manager")
      | Some c =>
          model_products ← latest_of_class c;
          extend_with_latest rest (products ++ model_products)
      end
  end.

(** [LatestProductManager.get_products_for_main_page]: [args] are the
    positional arguments, [kwargs] the keyword arguments. *)
Definition get_products_for_main_page (args : list string)
    (kwargs : gmap string string) : DB (list Obj) :=
  let with_respect_to := kwargs !! "with_respect_to" in
  ct_models ← objects_filter ContentType (λ r, contains args (model r.2));
  products ← extend_with_latest ct_models [];
  match with_respect_to with
  | Some w =>
      if truthy (Some w) then
        ct_model ← objects_filter ContentType (λ r, String.eqb (model r.2) w);
        if bool_decide (ct_model ≠ []) then
          if contains args w then
            mret (sorted_reverse
                    (λ x, Z.b2z (startswith (meta_model_name (class_of x)) w))
                    products)
          else mret products
        else mret products
      else mret products
  | None => mret products
  end.

(** *** [CategoryManager] *)

(** [models.Count(name)] and the key its value gets in [values()]. *)
Inductive Aggregate := Count (relation : string).

Definition default_alias (a : Aggregate) : string :=
  match a with Count relation => relation +:+ "__count" end.

Definition get_models_for_count (model_names : list string)
  : list Aggregate :=
  Count <$> model_names.

Definition CATEGORY_NAME_COUNT_NAME : gmap string string :=
  {[ "Ноутбуки" := "notebook__count"; "Смартфоны" := "smartphone__count" ]}.

(** The rows a category is joined with through a reverse relation: the
    primary keys of the products that point to it. *)
Definition related_ids (st : Store) (cat : Z) (relation : string)
  : result (list Z) :=
  if String.eqb relation "notebook" then
    Ok (List.filter
          (λ r, bool_decide (category (notebook_product r.2) = Some cat))
          (coreapp_notebook st)).*1
  else if String.eqb relation "smartphone" then
    Ok (List.filter
          (λ r, bool_decide (category (smartphone_product r.2) = Some cat))
          (coreapp_smartphone st)).*1
  else Raise (FieldError relation).

(** A LEFT OUTER JOIN keeps the category when nothing points to it, with
    NULL in the joined column. *)
Definition left_join (ids : list Z) : list (option Z) :=
  match ids with
  | [] => [None]
  | _ :: _ => Some <$> ids
  end.

(** Several joins multiply: one row per combination. *)
Fixpoint join_rows (columns : list (list (option Z)))
  : list (list (option Z)) :=
  match columns with
  | [] => [[]]
  | c :: cs => x ← c; (cons x) <$> join_rows cs
  end.

(** COUNT over column [i] of the joined rows counts the rows where the
    column is not NULL. *)
Definition count_column (i : nat) (rows : list (list (option Z))) : Z :=
  Z.of_nat
    (length (List.filter (λ row, bool_decide (is_Some (mjoin (row !! i))))
               rows)).

Fixpoint mapM_result {A B} (f : A → result B) (l : list A)
  : result (list B) :=
  match l with
  | [] => Ok []
  | x :: l' =>
      match f x with
      | Raise e => Raise e
      | Ok y =>
          match mapM_result f l' with
          | Raise e => Raise e
          | Ok ys => Ok (y :: ys)
          end
      end
  end.

(** One row of [queryset.annotate(...).values()]: the columns of
    the category and, under its alias, each aggregate taken over the
    category's joined rows. *)
Definition annotated_values (st : Store) (aggregates : list Aggregate)
    (r : Z * Category) : result (gmap string value) :=
  match mapM_result
          (λ a, match a with Count relation => related_ids st r.1 relation end)
          aggregates with
  | Raise e => Raise e
  | Ok ids =>
      let rows := join_rows (left_join <$> ids) in
      Ok (foldr (λ '(i, a) d, <[default_alias a := VInt (count_column i rows)]> d)
            {[ "id" := VInt r.1; "name" := VStr (name r.2);
               "slug" := VStr (category_slug r.2) ]}
            (imap (λ i a, (i, a)) aggregates))
  end.

(** The categories as a query without [order_by] gets them: in the
    engine's order (see [category_scan]). *)
Definition scan_categories (st : Store) : table Category :=
  sorted_reverse (λ r, - category_scan st r) (coreapp_category st).

Definition annotate_values (aggregates : list Aggregate)
  : DB (list (gmap string value)) :=
  λ st, (mapM_result (annotated_values st aggregates) (scan_categories st),
         st).

(** A dict key must be the string the model stored. *)
Definition as_key (v : value) : result string :=
  match v with
  | VStr s => Ok s
  | _ => Raise TypeError
  end.

(** The body of the list comprehension for one row [c]. *)
Definition sidebar_entry (c : gmap string value)
  : result (gmap string value) :=
  match getitem c "name" with
  | Raise e => Raise e
  | Ok c_name =>
      match getitem c "slug" with
      | Raise e => Raise e
      | Ok c_slug =>
          match as_key c_name with
          | Raise e => Raise e
          | Ok k =>
              match getitem CATEGORY_NAME_COUNT_NAME k with
              | Raise e => Raise e
              | Ok count_name =>
                  match getitem c count_name with
                  | Raise e => Raise e
                  | Ok c_count =>
                      Ok {[ "name" := c_name; "slug" := c_slug;
                            "count" := c_count ]}
                  end
              end
          end
      end
  end.

(** [CategoryManager.get_categories_for_left_sidebar(self)] *)
Definition get_categories_for_left_sidebar : DB (list (gmap string value)) :=
  let models := get_models_for_count ["notebook"; "smartphone"] in
  qs ← annotate_values models;
  lift (mapM_result sidebar_entry qs).

(** *** [CartProduct] *)

(** The objects of a class as [Obj] values, in table order. *)
Definition class_objects (c : ModelClass) : DB (list Obj) :=
  match c with
  | NoteBookClass => t ← objects_all NoteBook; mret (ONoteBook <$> t)
  | SmartphoneClass => t ← objects_all Smartphone; mret (OSmartphone <$> t)
  | CategoryClass => t ← objects_all Category; mret (OCategory <$> t)
  | CustomerClass => t ← objects_all Customer; mret (OCustomer <$> t)
  | CartClass => t ← objects_all Cart; mret (OCart <$> t)
  | CartProductClass => t ← objects_all CartProduct; mret (OCartProduct <$> t)
  end.

(** The generic foreign key [content_object]: the object of the class
    named by [content_type] whose key is [object_id]; [None] when the
    class or the object is missing. *)
Definition content_object (self : CartProduct) : DB (option Obj) :=
  ct ← objects_get ContentType (λ r, bool_decide (r.1 = content_type self));
  match model_class ct.2 with
  | None => mret None
  | Some c =>
      objs ← class_objects c;
      mret (List.find (λ o, bool_decide (obj_pk o = object_id self)) objs)
  end.

(** Reading a data attribute of a [CartProduct] instance by name.  The
    names are those of the fields the class declares (a foreign key [f]
    stores its key under [f_id]); the related objects are reached through
    [content_object] and the queries above. *)
Definition CartProduct_getattr (self : instance CartProduct) (attr : string)
  : result value :=
  let from_pk := match pk self with Some k => VInt k | None => VNone end in
  if String.eqb attr "id" then Ok from_pk
  else if String.eqb attr "pk" then Ok from_pk
  else if String.eqb attr "user_id" then
    Ok (VInt (cartproduct_user (fields self)))
  else if String.eqb attr "cart_id" then Ok (VInt (cart (fields self)))
  else if String.eqb attr "content_type_id" then
    Ok (VInt (content_type (fields self)))
  else if String.eqb attr "object_id" then
    Ok (VInt (object_id (fields self)))
  else if String.eqb attr "quantity" then Ok (VInt (quantity (fields self)))
  else if String.eqb attr "total_price" then
    Ok (VInt (cartproduct_total_price (fields self)))
  else Raise (AttributeError attr).

(** [obj.price] *)
Definition getattr_price (o : option Obj) : result value :=
  let of_price p := match p with Some d => VInt d | None => VNone end in
  match o with
  | Some (ONoteBook r) => Ok (of_price (price (notebook_product r.2)))
  | Some (OSmartphone r) => Ok (of_price (price (smartphone_product r.2)))
  | _ => Raise (AttributeError "price")
  end.

(** [a * b] on numbers. *)
Definition multiply (a b : value) : result Z :=
  match a, b with
  | VInt x, VInt y => Ok (x * y)
  | _, _ => Raise TypeError
  end.

Definition set_total_price (self : instance CartProduct) (p : Z)
  : instance CartProduct :=
  let f := fields self in
  Instance (pk self)
    {| cartproduct_user := cartproduct_user f; cart := cart f;
       content_type := content_type f; object_id := object_id f;
       quantity := quantity f; cartproduct_total_price := p |}.

(** [CartProduct.save]: the left operand [self.qty] is read first. *)
Definition CartProduct_save (self : instance CartProduct)
  : DB (instance CartProduct) :=
  qty ← lift (CartProduct_getattr self "qty");
  obj ← content_object (fields self);
  obj_price ← lift (getattr_price obj);
  total ← lift (multiply qty obj_price);
  Model_save (set_total_price self total).

(** [CartProduct.objects.create(user=, cart=, content_type=, object_id=)]:
    build the instance ([quantity] takes its default, 1; [total_price]
    has none and is set by [save]), then save it with the class's own
    [save]. *)
Definition CartProduct_objects_create (user cart content_type : Z)
    (object_id : value) : DB (instance CartProduct) :=
  n ← lift (as_int object_id);
  CartProduct_save
    (Instance None
       {| cartproduct_user := user; Models.cart := cart;
          Models.content_type := content_type; Models.object_id := n;
          quantity := 1; cartproduct_total_price := 0 |}).

(** *** [get_or_create(slug=...)] on the class of a content type

    The row with that slug when there is exactly one; a new instance made
    from the slug and saved with the class's [save] when there is none.
    Classes without a [slug] field cannot resolve the keyword.  A category
    cannot be stored without a slug. *)
Definition Product_get_or_create (A : Type) `{ProductModel A}
    (wrap : Z * A → Obj) (s : option string) : DB (Obj * bool) :=
  rows ← objects_filter A (λ r, bool_decide (Some (slug (product r.2)) = s));
  match rows with
  | [] =>
      self ← Product_save (Instance None (from_slug (default "" s)));
      mret (wrap (default 0 (pk self), fields self), true)
  | [r] => mret (wrap r, false)
  | _ :: _ :: _ => raise (MultipleObjectsReturned (model_name A))
  end.

Definition Category_get_or_create (s : option string) : DB (Obj * bool) :=
  rows ← objects_filter Category
            (λ r, bool_decide (Some (category_slug r.2) = s));
  match rows with
  | [] =>
      match s with
      | None => raise IntegrityError
      | Some s' =>
          self ← Model_save (Instance None {| name := ""; category_slug := s' |});
          mret (OCategory (default 0 (pk self), fields self), true)
      end
  | [r] => mret (OCategory r, false)
  | _ :: _ :: _ => raise (MultipleObjectsReturned (model_name Category))
  end.

Definition get_or_create (c : ModelClass) (s : option string)
  : DB (Obj * bool) :=
  match c with
  | NoteBookClass => Product_get_or_create NoteBook ONoteBook s
  | SmartphoneClass => Product_get_or_create Smartphone OSmartphone s
  | CategoryClass => Category_get_or_create s
  | CustomerClass | CartClass | CartProductClass => raise (FieldError "slug")
  end.

End Models.
Import Models.

(** ** views.py *)

Module Views.

Record HttpRequest := { request_user : Z }.

(** A template context holds row dicts, objects and lists of objects. *)
Inductive context_value :=
| CDicts (l : list (gmap string value))
| CObjs (l : list Obj)
| CObj (o : Obj).

(** Rendering is left to the template engine: a rendered response is the
    template's name with the context it was given. *)
Inductive HttpResponse :=
| render (template_name : string) (context : gmap string context_value)
| HttpResponseRedirect (url : string).

(** [BaseView.get] *)
Definition BaseView_get (request : HttpRequest) : DB HttpResponse :=
  categories ← get_categories_for_left_sidebar;
  products ← get_products_for_main_page ["notebook"; "smartphone"] ∅;
  customer ← objects_get Customer
                (λ r, bool_decide (user r.2 = request_user request));
  cart ← objects_get Cart (λ r, bool_decide (owner r.2 = customer.1));
  let context : gmap string context_value :=
    {[ "categories" := CDicts categories; "products" := CObjs products;
       "cart" := CObj (OCart cart) ]} in
  mret (render "base.html" context).

(** *** [ProductDetailView] *)
Definition CT_MODEL_MODEL_CLASS : gmap string ModelClass :=
  {[ "notebook" := NoteBookClass; "smartphone" := SmartphoneClass ]}.

(** What [dispatch] sets before it hands over to [DetailView]:
    [self.model] and [self.queryset]. *)
Definition ProductDetailView_dispatch (kwargs : gmap string string)
  : DB (ModelClass * list Obj) :=
  ct_model ← lift (getitem kwargs "ct_model");
  model ← lift (getitem CT_MODEL_MODEL_CLASS ct_model);
  queryset ← class_objects model;
  mret (model, queryset).

(** [obj.slug] for the objects a detail view can show. *)
Definition obj_slug (o : Obj) : option string :=
  match o with
  | ONoteBook r => Some (slug (notebook_product r.2))
  | OSmartphone r => Some (slug (smartphone_product r.2))
  | OCategory r => Some (category_slug r.2)
  | _ => None
  end.

(** [DetailView.get_object] with [slug_url_kwarg = 'slug']: the one object
    of the queryset with the slug of the URL, [Http404] when there is
    none.  The URL carries no primary key. *)
Definition get_object (model : ModelClass) (queryset : list Obj)
    (kwargs : gmap string string) : DB Obj :=
  match kwargs !! "slug" with
  | None => raise (AttributeError "slug")
  | Some s =>
      match List.filter (λ o, bool_decide (obj_slug o = Some s)) queryset with
      | [] => raise Http404
      | [o] => mret o
      | _ :: _ :: _ => raise (MultipleObjectsReturned (meta_model_name model))
      end
  end.

(** The lookup a product-detail request performs: [dispatch], then
    [get_object].  What follows it (the context, to which the mixin of
    [coreapp/mixins.py] contributes, and the template) is not part of the
    lookup. *)
Definition resolve (tag slug : string) : DB Obj :=
  let kwargs : gmap string string := {[ "ct_model" := tag; "slug" := slug ]} in
  view ← ProductDetailView_dispatch kwargs;
  get_object view.1 view.2 kwargs.

(** *** [AddToCartView] *)

(** The names bound at module level in [views.py]: its imports and its
    classes.  A name that a function reads without assigning or receiving
    it is looked up here, then among the builtins; [product_id] and
    [created], which [AddToCartView.get] reads, are in neither. *)
Definition views_globals : list string :=
  ["render"; "DetailView"; "View"; "NoteBook"; "Smartphone"; "Category";
   "LatestProducts"; "Customer"; "Cart"; "CartProduct";
   "CategoryDetailMixin"; "HttpResponseRedirect"; "ContentType";
   "BaseView"; "ProductDetailView"; "CategoryDetailView"; "AddToCartView";
   "CartView"].

Definition load_global (name : string) : result value :=
  if contains views_globals name then Ok (VObject name)
  else Raise (NameError name).

(** [cart.products.add(cart_product)] *)
Definition cart_products_add (cart_id cart_product_id : Z) : DB unit :=
  modify (λ st,
    {| django_content_type := django_content_type st;
       coreapp_category := coreapp_category st;
       coreapp_notebook := coreapp_notebook st;
       coreapp_smartphone := coreapp_smartphone st;
       coreapp_customer := coreapp_customer st;
       coreapp_cart := coreapp_cart st;
       coreapp_cartproduct := coreapp_cartproduct st;
       coreapp_cart_products :=
         if bool_decide ((cart_id, cart_product_id) ∈ coreapp_cart_products st)
         then coreapp_cart_products st
         else coreapp_cart_products st ++ [(cart_id, cart_product_id)];
       category_scan := category_scan st |}).

(** [AddToCartView.get].  The keyword arguments of [create] are evaluated
    left to right before the call: [cart.owner] (a query by key), then the
    name [product_id]. *)
Definition AddToCartView_get (request : HttpRequest)
    (kwargs : gmap string string) : DB HttpResponse :=
  let ct_model := kwargs !! "ct_model" in
  let product_slug := kwargs !! "slug" in
  customer ← objects_get Customer
                (λ r, bool_decide (user r.2 = request_user request));
  cart ← objects_get Cart
            (λ r, bool_decide (owner r.2 = customer.1) && negb (in_order r.2));
  content_type ← objects_get ContentType
                    (λ r, bool_decide (Some (model r.2) = ct_model));
  product ← match model_class content_type.2 with
            | None => raise (AttributeError "objects")
            | Some c => get_or_create c product_slug
            end;
  cart_owner ← objects_get Customer (λ r, bool_decide (r.1 = owner cart.2));
  product_id ← lift (load_global "product_id");
  cart_product ←
    CartProduct_objects_create cart_owner.1 cart.1 content_type.1 product_id;
  created ← lift (load_global "created");
  _ ← (if is_true created
       then cart_products_add cart.1 (default 0 (pk cart_product))
       else mret tt);
  mret (HttpResponseRedirect "/cart/").

(** *** [CartView] *)
Definition CartView_get (request : HttpRequest) : DB HttpResponse :=
  customer ← objects_get Customer
                (λ r, bool_decide (user r.2 = request_user request));
  cart ← objects_get Cart (λ r, bool_decide (owner r.2 = customer.1));
  categories ← get_categories_for_left_sidebar;
  let context : gmap string context_value :=
    {[ "cart" := CObj (OCart cart); "categories" := CDicts categories ]} in
  mret (render "cart.html" context).

End Views.
Import Views.

(** ** The vocabulary of the specification *)

Module Spec.

(** *** Product validation *)
Definition in_bounds (img : ImageFile) : Prop :=
  400 ≤ height img ≤ 800 ∧ 400 ≤ width img ≤ 800.

Definition below_minimum (img : ImageFile) : Prop :=
  height img < 400 ∨ width img < 400.

Definition above_maximum (img : ImageFile) : Prop :=
  height img > 800 ∨ width img > 800.

(** The saved instance has a key, and its table holds its fields under
    that key. *)
Definition persisted {A} `{Model A} (self : instance A) (st : Store) : Prop :=
  ∃ k, pk self = Some k ∧ (k, fields self) ∈ get_table st.

(** The image is one [Image.open] returns: it has no more than
    178956970 pixels. *)
Definition opens (img : ImageFile) : Prop :=
  Z.max 1 (width img) * Z.max 1 (height img) ≤ 178956970.

(** A row as the shop makes them: the category of the product, when it
    has one, is a stored one, and its price, when it has one, has no more
    than the ten digits (two of them decimal places) the column
    declares. *)
Definition ordinary_row (st : Store) (p : Product) : Prop :=
  (∀ c, category p = Some c → c ∈ (coreapp_category st).*1) ∧
  (∀ d, price p = Some d → Z.abs d < 10 ^ 10).

(** *** Type tags and the registry *)
Definition type_tags : list string := ["notebook"; "smartphone"].

(** Every type tag names a model of [coreapp], and no two content types
    share a model name. *)
Definition registry_ok (st : Store) : Prop :=
  NoDup (model <$> (django_content_type st).*2) ∧
  ∀ tag, tag ∈ type_tags →
    ∃ k, (k, {| app_label := "coreapp"; model := tag |})
           ∈ django_content_type st.

(** *** Latest products *)

(** [l] holds the [n] rows of [t] created last (all of them when [t] has
    fewer), the most recent first: keys are handed out in increasing
    order, so the rows left out have keys no greater than those kept. *)
Definition most_recent {A} (n : nat) (t l : table A) : Prop :=
  length l = (n `min` length t)%nat ∧
  (∀ i j x y, l !! i = Some x → l !! j = Some y → (i < j)%nat → y.1 ≤ x.1) ∧
  ∃ older, t ≡ₚ l ++ older ∧ ∀ x y, x ∈ l → y ∈ older → y.1 ≤ x.1.

Definition of_type (tag : string) (x : Obj) : bool :=
  String.eqb (meta_model_name (class_of x)) tag.

(** The objects of type [tag] first; order otherwise kept. *)
Definition prioritized (tag : string) (l : list Obj) : list Obj :=
  List.filter (of_type tag) l ++ List.filter (λ x, negb (of_type tag x)) l.

(** The products of one type among the latest notebooks [nbs] and the
    latest smartphones [sps]. *)
Definition products_of_type (nbs : table NoteBook) (sps : table Smartphone)
    (tag : string) : list Obj :=
  if String.eqb tag "notebook" then ONoteBook <$> nbs
  else if String.eqb tag "smartphone" then OSmartphone <$> sps
  else [].

(** *** Sidebar counts *)
Definition notebooks_in (st : Store) (cat : Z) : Z :=
  Z.of_nat (length (List.filter
    (λ r, bool_decide (category (notebook_product r.2) = Some cat))
    (coreapp_notebook st))).

Definition smartphones_in (st : Store) (cat : Z) : Z :=
  Z.of_nat (length (List.filter
    (λ r, bool_decide (category (smartphone_product r.2) = Some cat))
    (coreapp_smartphone st))).

(** The number of persisted products, of both variants, in a category. *)
Definition products_in (st : Store) (cat : Z) : Z :=
  notebooks_in st cat + smartphones_in st cat.

Definition known_name (n : string) : Prop :=
  n = "Ноутбуки" ∨ n = "Смартфоны".

(** The count the category's name selects, taken over the joined rows. *)
Definition count_by_name (st : Store) (r : Z * Category) : Z :=
  if String.eqb (name r.2) "Ноутбуки"
  then notebooks_in st r.1 * Z.max 1 (smartphones_in st r.1)
  else smartphones_in st r.1 * Z.max 1 (notebooks_in st r.1).

(** A category holds only products of the variant its name stands for. *)
Definition single_variant (st : Store) (r : Z * Category) : Prop :=
  if String.eqb (name r.2) "Ноутбуки" then smartphones_in st r.1 = 0
  else notebooks_in st r.1 = 0.

Definition entry (n s : string) (count : Z) : gmap string value :=
  {[ "name" := VStr n; "slug" := VStr s; "count" := VInt count ]}.

(** *** Cart *)

(** The lines of a cart, and the aggregates the specification wants a
    cart to show. *)
Definition lines_of (st : Store) (cart_id : Z) : table CartProduct :=
  List.filter (λ r, bool_decide (cart r.2 = cart_id)) (coreapp_cartproduct st).

Definition active_carts_of (st : Store) (customer : Z) : table Cart :=
  List.filter (λ r, bool_decide (owner r.2 = customer) && negb (in_order r.2))
    (coreapp_cart st).


Definition total {A} (f : A → Z) (l : list A) : Z :=
  foldr (λ x acc, f x + acc) 0 l.


(** *** Auxiliary notions of the proofs *)

(** No two rows of a table of products share a slug ([unique=True]). *)
Definition unique_slugs {A} (f : A → Product) (t : table A) : Prop :=
  NoDup ((λ r, slug (f r.2)) <$> t).

Definition latest_notebooks (st : Store) : table NoteBook :=
  slice 5 (order_by_desc_id (coreapp_notebook st)).

Definition latest_smartphones (st : Store) : table Smartphone :=
  slice 5 (order_by_desc_id (coreapp_smartphone st)).

(** The content type of one of the two product classes. *)
Definition product_type (ct : ContentType) : Prop :=
  ct = {| app_label := "coreapp"; model := "notebook" |} ∨
  ct = {| app_label := "coreapp"; model := "smartphone" |}.

(** Descending key order. *)
Definition descending {A} (key : A → Z) (x y : A) : Prop := key y ≤ key x.

Definition not_null (x : option Z) : bool := bool_decide (is_Some x).

(** The [values()] row of a category under the two counts. *)
Definition annotated (st : Store) (r : Z * Category) : gmap string value :=
  <["notebook__count" :=
      VInt (notebooks_in st r.1 * Z.max 1 (smartphones_in st r.1))]>
    (<["smartphone__count" :=
         VInt (smartphones_in st r.1 * Z.max 1 (notebooks_in st r.1))]>
       {[ "id" := VInt r.1; "name" := VStr (name r.2);
          "slug" := VStr (category_slug r.2) ]}).

Definition sidebar_row (st : Store) (r : Z * Category) : gmap string value :=
  entry (name r.2) (category_slug r.2) (count_by_name st r).

End Spec.
Import Spec.

(** ** Concrete shops *)

Module Examples.

Definition photo (h w bytes : Z) : ImageFile :=
  {| height := h; width := w; size := bytes |}.

Definition item (cat : Z) (s : string) (img : ImageFile) (cents : Z)
  : Product :=
  {| category := Some cat; title := s; slug := s; image := Some img;
     description := None; price := Some cents |}.

Definition notebook (cat : Z) (s : string) (img : ImageFile) : NoteBook :=
  {| notebook_product := item cat s img 12500000; notebook_diagonal := "15.6";
     notebook_display_type := "IPS"; processor_freq := "2.4";
     notebook_ram := "16"; video := "integrated" |}.

Definition smartphone (cat : Z) (s : string) (cents : Z) : Smartphone :=
  {| smartphone_product := item cat s (photo 500 600 204800) cents;
     smartphone_diagonal := "6.1"; smartphone_display_type := "IPS";
     bat_volume := "3110"; smartphone_ram := "4"; sd := false;
     main_camera := "12"; front_camera := "12" |}.

Definition registry : table ContentType :=
  [(7, {| app_label := "coreapp"; model := "category" |});
   (8, {| app_label := "coreapp"; model := "notebook" |});
   (9, {| app_label := "coreapp"; model := "smartphone" |});
   (10, {| app_label := "coreapp"; model := "cartproduct" |});
   (11, {| app_label := "coreapp"; model := "cart" |});
   (12, {| app_label := "coreapp"; model := "customer" |})].

Definition notebooks_category : Category :=
  {| name := "Ноутбуки"; category_slug := "notebooks" |}.
Definition smartphones_category : Category :=
  {| name := "Смартфоны"; category_slug := "smartphones" |}.
Definition tablets_category : Category :=
  {| name := "Tablets"; category_slug := "tablets" |}.

Definition a_cart (ordered : bool) : Cart :=
  {| owner := 1; total_products := 0; total_price := 0; in_order := ordered;
     for_anonymous_user := false |}.

(** A shop with the given categories, notebooks, smartphones and carts;
    customer 1 is user 1; no cart has a line.  Its engine hands out the
    categories by primary key. *)
Definition shop (cats : table Category) (nbs : table NoteBook)
    (sps : table Smartphone) (carts : table Cart) : Store :=
  {| django_content_type := registry;
     coreapp_category := cats;
     coreapp_notebook := nbs;
     coreapp_smartphone := sps;
     coreapp_customer := [(1, {| user := 1; phone := "+7 700 000 00 00" |})];
     coreapp_cart := carts;
     coreapp_cartproduct := [];
     coreapp_cart_products := [];
     category_scan := fst |}.

Definition two_categories : table Category :=
  [(1, notebooks_category); (2, smartphones_category)].

(** One smartphone, "iphone-11" at 999.00, and an active empty cart. *)
Definition iphone_shop : Store :=
  shop two_categories [] [(1, smartphone 2 "iphone-11" 99900)]
    [(1, a_cart false)].

(** The same shop after checkout: the customer's only cart is ordered. *)
Definition ordered_shop : Store :=
  shop two_categories [] [(1, smartphone 2 "iphone-11" 99900)]
    [(1, a_cart true)].

(** The customer has an ordered cart and an active one. *)
Definition two_carts_shop : Store :=
  shop two_categories [] [(1, smartphone 2 "iphone-11" 99900)]
    [(1, a_cart true); (2, a_cart false)].

(** A shop with a third category. *)
Definition tablets_shop : Store :=
  shop [(1, notebooks_category); (3, tablets_category)] [] [] [].

(** The notebooks category holds two notebooks and one smartphone. *)
Definition mixed_shop : Store :=
  shop two_categories
    [(1, notebook 1 "thinkpad" (photo 600 800 204800));
     (2, notebook 1 "macbook" (photo 600 800 204800))]
    [(1, smartphone 1 "iphone-11" 99900)] [].

Definition customer_request : HttpRequest := {| request_user := 1 |}.

Definition add_iphone : gmap string string :=
  {[ "ct_model" := "smartphone"; "slug" := "iphone-11" ]}.

(** A line for two iphones in cart 1, not saved yet. *)
Definition two_iphones : instance CartProduct :=
  Instance None
    {| cartproduct_user := 1; cart := 1; content_type := 9; object_id := 1;
       quantity := 2; cartproduct_total_price := 0 |}.

(** Seven notebooks, for the main page. *)
Definition seven_notebooks : table NoteBook :=
  (λ r, (r.1, notebook 1 r.2 (photo 600 800 204800)))
    <$> [(1, "nb-1"); (2, "nb-2"); (3, "nb-3"); (4, "nb-4"); (5, "nb-5");
         (6, "nb-6"); (7, "nb-7")].

(** A notebook about to be saved for the first time, with an image of
    the given height, width and file size. *)
Definition new_notebook (h w bytes : Z) : instance NoteBook :=
  Instance None (notebook 1 "zenbook" (photo h w bytes)).

Definition main_page_shop : Store :=
  shop two_categories seven_notebooks
    [(1, smartphone 2 "iphone-11" 99900); (2, smartphone 2 "pixel" 59900)]
    [(1, a_cart false)].

End Examples.
Import Examples.

(** ** admin.py *)

Module Admin.

(** The form field an admin class answers with for a foreign key: one of
    the two choice fields of [admin.py], over the categories it was given,
    or whatever [ModelAdmin] makes for the field. *)
Inductive FormField :=
| NoteBookCategoryChoiceField (queryset : table Category)
| SmartphoneCategoryChoiceField (queryset : table Category)
| ModelAdmin_formfield (db_field_name : string).

(** [NoteBookAdmin.formfield_for_foreignkey] *)
Definition NoteBookAdmin_formfield_for_foreignkey (db_field_name : string)
  : DB FormField :=
  if String.eqb db_field_name "category" then
    queryset ← objects_filter Category
                  (λ r, String.eqb (category_slug r.2) "notebooks");
    mret (NoteBookCategoryChoiceField queryset)
  else mret (ModelAdmin_formfield db_field_name).

(** [SmartphoneAdmin.formfield_for_foreignkey] *)
Definition SmartphoneAdmin_formfield_for_foreignkey (db_field_name : string)
  : DB FormField :=
  if String.eqb db_field_name "category" then
    queryset ← objects_filter Category
                  (λ r, String.eqb (category_slug r.2) "smartphones");
    mret (SmartphoneCategoryChoiceField queryset)
  else mret (ModelAdmin_formfield db_field_name).

(** The categories a form field lets the user choose from. *)
Definition choices (f : FormField) : option (table Category) :=
  match f with
  | NoteBookCategoryChoiceField queryset => Some queryset
  | SmartphoneCategoryChoiceField queryset => Some queryset
  | ModelAdmin_formfield _ => None
  end.

End Admin.
Import Admin.

(** ** models.py and views.py: links and detail pages *)

Module Pages.

(** [reverse(viewname, kwargs=...)]: the URL patterns are not part of the
    sources, so a reversed URL is kept as the view's name with the keyword
    arguments it was made from, which are the ones the view receives
    when the URL is requested. *)
Record Url := { viewname : string; url_kwargs : gmap string string }.

(** [get_product_url(obj, viewname)] *)
Definition get_product_url (obj : Obj) (viewname : string) : result Url :=
  let ct_model := meta_model_name (class_of obj) in
  match obj_slug obj with
  | None => Raise (AttributeError "slug")
  | Some s =>
      Ok {| viewname := viewname;
            url_kwargs := {[ "ct_model" := ct_model; "slug" := s ]} |}
  end.

(** [NoteBook.get_absolute_url] and [Smartphone.get_absolute_url] *)
Definition NoteBook_get_absolute_url (self : Z * NoteBook) : result Url :=
  get_product_url (ONoteBook self) "product_detail".

Definition Smartphone_get_absolute_url (self : Z * Smartphone) : result Url :=
  get_product_url (OSmartphone self) "product_detail".

(** The object a request to [ProductDetailView] shows: [dispatch] on the
    keyword arguments of the URL, then [get_object]. *)
Definition ProductDetailView_object (kwargs : gmap string string) : DB Obj :=
  view ← ProductDetailView_dispatch kwargs;
  get_object view.1 view.2 kwargs.


End Pages.
Import Pages.

(** ** Further vocabulary *)

Module Conditions.

(** The objects whose model name starts with [w] first; order otherwise
    kept. *)
Definition prefix_first (w : string) (l : list Obj) : list Obj :=
  List.filter (λ x, startswith (meta_model_name (class_of x)) w) l ++
  List.filter (λ x, negb (startswith (meta_model_name (class_of x)) w)) l.

(** When [get_products_for_main_page] reorders: [with_respect_to] is
    given and not empty, names a content type, and is among [args]. *)
Definition reorders (st : Store) (args : list string)
    (kwargs : gmap string string) : option string :=
  match kwargs !! "with_respect_to" with
  | Some w =>
      if truthy (Some w)
         && bool_decide (w ∈ model <$> (django_content_type st).*2)
         && contains args w
      then Some w else None
  | None => None
  end.

(** The content types [args] select. *)
Definition selected (st : Store) (args : list string) : table ContentType :=
  List.filter (λ r, contains args (model r.2)) (django_content_type st).

(** The customers of a user, the carts of a customer, the active carts. *)
Definition customers_of (st : Store) (u : Z) : table Customer :=
  List.filter (λ r, bool_decide (user r.2 = u)) (coreapp_customer st).

Definition carts_of (st : Store) (customer : Z) : table Cart :=
  List.filter (λ r, bool_decide (owner r.2 = customer)) (coreapp_cart st).

(** The content types a tag names. *)
Definition content_types_of (st : Store) (tag : option string)
  : table ContentType :=
  List.filter (λ r, bool_decide (Some (model r.2) = tag))
    (django_content_type st).

(** [st'] differs from [st] at most in its categories. *)
Definition same_but_categories (st st' : Store) : Prop :=
  django_content_type st' = django_content_type st ∧
  coreapp_notebook st' = coreapp_notebook st ∧
  coreapp_smartphone st' = coreapp_smartphone st ∧
  coreapp_customer st' = coreapp_customer st ∧
  coreapp_cart st' = coreapp_cart st ∧
  coreapp_cartproduct st' = coreapp_cartproduct st ∧
  coreapp_cart_products st' = coreapp_cart_products st.

(** The store with another table of categories. *)
Definition with_categories (cats : table Category) (st : Store) : Store :=
  set_table cats st.

(** The category a slug-only [get_or_create] makes. *)
Definition unnamed_category (s : string) : Category :=
  {| name := ""; category_slug := s |}.

(** The categories a form field of the admin offers in a store. *)
Definition offered (field : DB FormField) (st : Store) : table Category :=
  match (field st).1 with
  | Ok f => default [] (choices f)
  | Raise _ => []
  end.

(** Every notebook is in a category the notebook admin offers, every
    smartphone in one the smartphone admin offers. *)
Definition filed_by_admin (st : Store) : Prop :=
  (∀ r, r ∈ coreapp_notebook st →
     ∃ c, category (notebook_product r.2) = Some c.1 ∧
          c ∈ offered (NoteBookAdmin_formfield_for_foreignkey "category") st) ∧
  (∀ r, r ∈ coreapp_smartphone st →
     ∃ c, category (smartphone_product r.2) = Some c.1 ∧
          c ∈ offered (SmartphoneAdmin_formfield_for_foreignkey "category") st).

(** The stored objects of a class, and those with a given slug. *)
Definition objects_of (st : Store) (c : ModelClass) : list Obj :=
  match c with
  | NoteBookClass => ONoteBook <$> coreapp_notebook st
  | SmartphoneClass => OSmartphone <$> coreapp_smartphone st
  | CategoryClass => OCategory <$> coreapp_category st
  | CustomerClass => OCustomer <$> coreapp_customer st
  | CartClass => OCart <$> coreapp_cart st
  | CartProductClass => OCartProduct <$> coreapp_cartproduct st
  end.

Definition with_slug (st : Store) (c : ModelClass) (s : string) : list Obj :=
  List.filter (λ o, bool_decide (obj_slug o = Some s)) (objects_of st c).

(** The customers with a given primary key. *)
Definition customers_with_pk (st : Store) (k : Z) : table Customer :=
  List.filter (λ r, bool_decide (r.1 = k)) (coreapp_customer st).

(** The row of [values()] with exact counts. *)
Definition counted (st : Store) (r : Z * Category) : gmap string value :=
  <["notebook__count" := VInt (notebooks_in st r.1)]>
    (<["smartphone__count" := VInt (smartphones_in st r.1)]>
       {[ "id" := VInt r.1; "name" := VStr (name r.2);
          "slug" := VStr (category_slug r.2) ]}).

(** [st'] is [st] with at most one more category. *)
Definition grown (st st' : Store) : Prop :=
  same_but_categories st st' ∧
  ∃ extra, coreapp_category st' = coreapp_category st ++ extra ∧
           (length extra ≤ 1)%nat.

(** Primary keys are unique in a table. *)
Definition unique_pks {A} (t : table A) : Prop := NoDup t.*1.

(** The same product with an image file of [bytes] bytes: the picture,
    and so its height and width, is the same. *)
Definition resized (bytes : Z) (img : ImageFile) : ImageFile :=
  {| height := height img; width := width img; size := bytes |}.

Definition Product_resized (bytes : Z) (p : Product) : Product :=
  {| category := category p; title := title p; slug := slug p;
     image := resized bytes <$> image p; description := description p;
     price := price p |}.

Definition NoteBook_resized (bytes : Z) (x : NoteBook) : NoteBook :=
  {| notebook_product := Product_resized bytes (notebook_product x);
     notebook_diagonal := notebook_diagonal x;
     notebook_display_type := notebook_display_type x;
     processor_freq := processor_freq x; notebook_ram := notebook_ram x;
     video := video x |}.

Definition Smartphone_resized (bytes : Z) (x : Smartphone) : Smartphone :=
  {| smartphone_product := Product_resized bytes (smartphone_product x);
     smartphone_diagonal := smartphone_diagonal x;
     smartphone_display_type := smartphone_display_type x;
     bat_volume := bat_volume x; smartphone_ram := smartphone_ram x;
     sd := sd x; main_camera := main_camera x;
     front_camera := front_camera x |}.

Definition unique_category_slugs (st : Store) : Prop :=
  NoDup ((λ r, category_slug r.2) <$> coreapp_category st).

End Conditions.
Import Conditions.

(** ** Further concrete shops *)

Module Scenarios.


(** A shop with a cart that has a line, so that carts and cart lines
    can be listed. *)
Definition a_line : CartProduct :=
  {| cartproduct_user := 1; cart := 1; content_type := 9; object_id := 1;
     quantity := 1; cartproduct_total_price := 99900 |}.

Definition cart_listing_shop : Store :=
  {| django_content_type := registry;
     coreapp_category := two_categories;
     coreapp_notebook := [];
     coreapp_smartphone := [(1, smartphone 2 "iphone-11" 99900)];
     coreapp_customer := [(1, {| user := 1; phone := "+7 700 000 00 00" |})];
     coreapp_cart := [(1, a_cart false); (2, a_cart true)];
     coreapp_cartproduct := [(5, a_line)];
     coreapp_cart_products := [(1, 5)];
     category_scan := fst |}.

Definition cart_first : gmap string string :=
  {[ "with_respect_to" := "cart" ]}.


(** Two categories with names the sidebar does not know. *)
Definition unknown_names_shop : Store :=
  shop [(1, notebooks_category); (3, tablets_category);
        (4, {| name := "Watches"; category_slug := "watches" |})] [] [] [].

(** A shop nobody has registered with as a customer yet, with a third
    category. *)
Definition no_customer_shop : Store :=
  {| django_content_type := registry;
     coreapp_category := [(1, notebooks_category); (3, tablets_category)];
     coreapp_notebook := [];
     coreapp_smartphone := [];
     coreapp_customer := [];
     coreapp_cart := [];
     coreapp_cartproduct := [];
     coreapp_cart_products := [];
     category_scan := fst |}.

Definition add_category : gmap string string :=
  {[ "ct_model" := "category"; "slug" := "sale" ]}.

Definition add_nokia : gmap string string :=
  {[ "ct_model" := "smartphone"; "slug" := "nokia-3310" ]}.

(** A shop stocked through the admin: notebooks under the slug
    "notebooks", smartphones under "smartphones". *)
Definition stocked_shop : Store :=
  shop two_categories
    [(1, notebook 1 "thinkpad" (photo 600 800 204800));
     (2, notebook 1 "macbook" (photo 600 800 204800))]
    [(1, smartphone 2 "iphone-11" 99900)] [(1, a_cart false)].

End Scenarios.
Import Scenarios.

(** * Proofs *)

Ltac run :=
  unfold mbind, M_bind, mret, M_ret, bind, ret, raise, lift, gets, modify.

(** [ordinary_row] of a concrete product in a concrete shop. *)
Ltac ordinary :=
  split; [intros c [= <-]; vm_compute; by left|intros d [= <-]; reflexivity].

(** ** Lists *)

Lemma contains_spec xs x : contains xs x = true ↔ x ∈ xs.
Proof. unfold contains. apply bool_decide_eq_true. Qed.

Lemma elem_of_List_filter {A} (p : A → bool) (l : list A) x :
  x ∈ List.filter p l ↔ x ∈ l ∧ p x = true.
Proof. rewrite !list_elem_of_In. apply filter_In. Qed.

Lemma List_filter_fmap {A B} (f : A → B) (p : B → bool) (l : list A) :
  List.filter p (f <$> l) = f <$> List.filter (λ x, p (f x)) l.
Proof.
  induction l as [|x l IH]; [done|]. rewrite fmap_cons. cbn [List.filter].
  rewrite IH. by destruct (p (f x)).
Qed.

Lemma List_filter_none {A} (p : A → bool) (l : list A) :
  (∀ x, x ∈ l → p x = false) → List.filter p l = [].
Proof.
  induction l as [|x l IH]; [done|]. intros H. cbn [List.filter].
  rewrite (H x) by left. apply IH. intros y Hy. apply H. by right.
Qed.

Lemma List_filter_ext_elem {A} (f g : A → bool) (l : list A) :
  (∀ x, x ∈ l → f x = g x) → List.filter f l = List.filter g l.
Proof.
  intros H. apply filter_ext_in. intros x Hx. apply H. by apply list_elem_of_In.
Qed.

Lemma NoDup_fmap_eq {A B} (f : A → B) (l : list A) x y :
  NoDup (f <$> l) → x ∈ l → y ∈ l → f x = f y → x = y.
Proof.
  induction l as [|z l IH]; simpl; [by intros _ ?%elem_of_nil|].
  rewrite NoDup_cons. intros [Hz Hl] Hx Hy Hf.
  apply elem_of_cons in Hx as [->|Hx]; apply elem_of_cons in Hy as [->|Hy].
  - done.
  - exfalso. apply Hz. rewrite Hf. by apply list_elem_of_fmap_2.
  - exfalso. apply Hz. rewrite <- Hf. by apply list_elem_of_fmap_2.
  - by apply IH.
Qed.

Lemma NoDup_fmap_List_filter {A B} (f : A → B) (p : A → bool) (l : list A) :
  NoDup (f <$> l) → NoDup (f <$> List.filter p l).
Proof.
  induction l as [|x l IH]; simpl; [done|].
  rewrite NoDup_cons. intros [Hx Hl]. destruct (p x); simpl; [|by apply IH].
  apply NoDup_cons. split; [|by apply IH].
  intros Hin. apply Hx. apply list_elem_of_fmap in Hin as (y & -> & Hy).
  apply list_elem_of_fmap. exists y. split; [done|].
  by apply elem_of_List_filter in Hy as [? _].
Qed.

(** With distinct keys [f], the rows a key selects are the one row that
    has it. *)
Lemma List_filter_unique {A B} (f : A → B) (p : A → bool) (l : list A) (x : A) :
  NoDup (f <$> l) → x ∈ l → (∀ y, p y = true ↔ f y = f x) →
  List.filter p l = [x].
Proof.
  intros Hnd Hx Hp. induction l as [|y l IH]; [by apply elem_of_nil in Hx|].
  rewrite fmap_cons in Hnd. apply NoDup_cons in Hnd as [Hy Hnd].
  cbn [List.filter]. apply elem_of_cons in Hx as [<- | Hx].
  - rewrite (proj2 (Hp x)) by done. f_equal. apply List_filter_none.
    intros z Hz. apply not_true_is_false. intros Hpz%Hp.
    apply Hy. rewrite <- Hpz. by apply list_elem_of_fmap_2.
  - destruct (p y) eqn:Hpy; [|by apply IH].
    exfalso. apply Hy. apply Hp in Hpy. rewrite Hpy.
    by apply list_elem_of_fmap_2.
Qed.

(** ** [Model.save] and [Product.save] *)

Lemma Model_save_run {A} `{Model A} (self : instance A) (st : Store) :
  Model_save self st =
    match refusal st self with
    | Some e => (Raise e, st)
    | None =>
        (Ok (Instance (Some (write_row self (get_table st)).1) (fields self)),
         set_table (write_row self (get_table st)).2 st)
    end.
Proof.
  unfold Model_save. run. destruct (refusal st self); [reflexivity|].
  by destruct (write_row self (get_table st)).
Qed.

Lemma write_row_elem {A} (self : instance A) (t : table A) :
  ((write_row self t).1, fields self) ∈ (write_row self t).2.
Proof.
  unfold write_row. destruct (pk self) as [k|]; simpl.
  - unfold has_pk. case_bool_decide as Hk; simpl.
    + induction t as [|r t IH]; simpl in *.
      * by apply elem_of_nil in Hk.
      * case_bool_decide; [left|].
        right. apply IH. apply elem_of_cons in Hk as [?|?]; [congruence|done].
    + apply elem_of_app. right. left.
  - apply elem_of_app. right. left.
Qed.

Lemma Model_save_persists {A} `{Model A} (self : instance A) (st : Store) :
  refusal st self = None →
  ∃ self', (Model_save self st).1 = Ok self' ∧ fields self' = fields self ∧
           persisted self' (Model_save self st).2.
Proof.
  intros Hok. rewrite Model_save_run, Hok. cbn [fst snd].
  eexists. split; [reflexivity|]. split; [reflexivity|].
  eexists. split; [reflexivity|]. cbn [fields]. rewrite get_set_table.
  apply write_row_elem.
Qed.

Lemma opens_iff (img : ImageFile) : decompression_bomb img = false ↔ opens img.
Proof.
  unfold decompression_bomb, opens. rewrite bool_decide_eq_false.
  change (2 * MAX_IMAGE_PIXELS) with 178956970. lia.
Qed.

Lemma in_bounds_iff (img : ImageFile) :
  in_bounds img ↔ ¬ below_minimum img ∧ ¬ above_maximum img.
Proof. unfold in_bounds, below_minimum, above_maximum. lia. Qed.

Section ProductSave.
Context {A : Type} `{ProductModel A}.

(** The ways out of [Product.save], in the order of its checks. *)
Lemma Product_save_cases (self : instance A) (img : ImageFile) (st : Store) :
  image (product (fields self)) = Some img →
  Product_save self st =
    if decompression_bomb img
    then (Raise DecompressionBombError, st)
    else if bool_decide (below_minimum img)
    then (Raise MinResolutionErrorException, st)
    else if bool_decide (above_maximum img)
    then (Raise MaxResolutionErrorException, st)
    else Model_save self st.
Proof.
  intros Himg. unfold Product_save. rewrite Himg. run. cbn [Image_open].
  destruct (decompression_bomb img); [reflexivity|]. simpl.
  unfold below_minimum, above_maximum.
  repeat case_bool_decide; simpl; try reflexivity; lia.
Qed.

(** C1, as amended: take a product whose image [Image.open] reads as [h]
    by [w] pixels (one of at most 178956970 pixels) and whose row is an
    ordinary one (its category, when set, a stored one; its price, when
    set, of at most ten digits).  When a dimension is below 400 the save
    raises [MinResolutionErrorException] and stores nothing; when a
    dimension exceeds 800 and none is below 400 it raises
    [MaxResolutionErrorException] and stores nothing; when 400 ≤ h ≤ 800
    and 400 ≤ w ≤ 800 the row goes to the database, which stores it unless
    it refuses it ([refusal]: a slug another row of the class has, no
    category, no price), and then the save raises [IntegrityError] and
    stores nothing.  So the
    product is saved, that is stored in the table of its class, if and
    only if its image is within the bounds and the database does not
    refuse the row.  This holds for every concrete class of [Product],
    [NoteBook] and [Smartphone] alike. *)
Theorem Product_save_outcome (self : instance A) (img : ImageFile)
    (st : Store) :
  image (product (fields self)) = Some img →
  opens img →
  ordinary_row st (product (fields self)) →
  ((∃ self', (Product_save self st).1 = Ok self' ∧
             fields self' = fields self ∧
             persisted self' (Product_save self st).2)
   ↔ in_bounds img ∧ refusal st self = None) ∧
  (below_minimum img →
   Product_save self st = (Raise MinResolutionErrorException, st)) ∧
  (above_maximum img → ¬ below_minimum img →
   Product_save self st = (Raise MaxResolutionErrorException, st)) ∧
  (∀ e, in_bounds img → refusal st self = Some e →
   Product_save self st = (Raise e, st)).
Proof.
  intros Himg Hopen%opens_iff _. rewrite (Product_save_cases self img st Himg).
  rewrite Hopen. pose proof (in_bounds_iff img) as Hb.
  case_bool_decide as Hlow; [|case_bool_decide as Hhigh]; cbn [fst snd].
  - split; [|split; [|split]]; [|done|tauto|intros e ? ?; tauto].
    split; [by intros (self' & [=] & _)|tauto].
  - split; [|split; [|split]]; [|tauto|done|intros e ? ?; tauto].
    split; [by intros (self' & [=] & _)|tauto].
  - split; [|split; [|split]]; [|tauto|tauto|].
    + split.
      * intros (self' & Hsaved & _). split; [tauto|].
        rewrite Model_save_run in Hsaved.
        by destruct (refusal st self).
      * intros [_ Hok]. by apply Model_save_persists.
    + intros e _ He. by rewrite Model_save_run, He.
Qed.

(** C9, as amended: when the image is one [Image.open] returns (at most
    178956970 pixels) and some dimension is below 400 and some dimension
    exceeds 800, the save raises [MinResolutionErrorException], the error
    of the check made first, and not [MaxResolutionErrorException]; the
    store is left as it was. *)
Theorem Product_save_minimum_first (self : instance A) (img : ImageFile)
    (st : Store) :
  image (product (fields self)) = Some img →
  opens img →
  below_minimum img → above_maximum img →
  Product_save self st = (Raise MinResolutionErrorException, st) ∧
  (Product_save self st).1 ≠ Raise MaxResolutionErrorException.
Proof.
  intros Himg Hopen%opens_iff Hlow _.
  rewrite (Product_save_cases self img st Himg), Hopen.
  by rewrite bool_decide_true.
Qed.

End ProductSave.

(** [Product.save] on a notebook and on a smartphone whose image file
    has another length in bytes. *)
Lemma NoteBook_resized_save (st : Store) (key : option Z) (bytes : Z)
    (x : NoteBook) :
  Product_save (Instance key (NoteBook_resized bytes x)) st =
    match Product_save (Instance key x) st with
    | (Ok _, _) => Model_save (Instance key (NoteBook_resized bytes x)) st
    | (Raise e, st') => (Raise e, st')
    end.
Proof.
  destruct (image (notebook_product x)) as [img|] eqn:Himg.
  - rewrite (Product_save_cases (Instance key (NoteBook_resized bytes x))
               (resized bytes img) st) by (cbn; by rewrite Himg).
    rewrite (Product_save_cases (Instance key x) img st) by exact Himg.
    change (decompression_bomb (resized bytes img))
      with (decompression_bomb img).
    change (below_minimum (resized bytes img)) with (below_minimum img).
    change (above_maximum (resized bytes img)) with (above_maximum img).
    destruct (decompression_bomb img); [done|].
    repeat case_bool_decide; try done.
    rewrite !Model_save_run.
    change (refusal st (Instance key (NoteBook_resized bytes x)))
      with (refusal st (Instance key x)).
    by destruct (refusal st (Instance key x)).
  - unfold Product_save. cbn. by rewrite Himg.
Qed.

Lemma Smartphone_resized_save (st : Store) (key : option Z) (bytes : Z)
    (x : Smartphone) :
  Product_save (Instance key (Smartphone_resized bytes x)) st =
    match Product_save (Instance key x) st with
    | (Ok _, _) => Model_save (Instance key (Smartphone_resized bytes x)) st
    | (Raise e, st') => (Raise e, st')
    end.
Proof.
  destruct (image (smartphone_product x)) as [img|] eqn:Himg.
  - rewrite (Product_save_cases (Instance key (Smartphone_resized bytes x))
               (resized bytes img) st) by (cbn; by rewrite Himg).
    rewrite (Product_save_cases (Instance key x) img st) by exact Himg.
    change (decompression_bomb (resized bytes img))
      with (decompression_bomb img).
    change (below_minimum (resized bytes img)) with (below_minimum img).
    change (above_maximum (resized bytes img)) with (above_maximum img).
    destruct (decompression_bomb img); [done|].
    repeat case_bool_decide; try done.
    rewrite !Model_save_run.
    change (refusal st (Instance key (Smartphone_resized bytes x)))
      with (refusal st (Instance key x)).
    by destruct (refusal st (Instance key x)).
  - unfold Product_save. cbn. by rewrite Himg.
Qed.

(** C10, as amended: the byte size of the image file has no part in a
    save.  Saving a notebook, or a smartphone, and saving the same
    product with an image file of any other length, in the same store and
    under the same key, end the same way: with the same exception or
    both without one; and when the first, an ordinary row, is stored, so
    is the second: it comes back with its fields and the table of its
    class holds them.
    [MAX_IMAGE_SIZE] is declared and read by no operation.  Whether a
    product with an image within the bounds is saved is for the database
    alone to say (C1), not for the file size. *)
Theorem Product_save_ignores_size (st : Store) (key : option Z) (bytes : Z) :
  (∀ x : NoteBook,
     raised (Product_save (Instance key (NoteBook_resized bytes x)) st).1
       = raised (Product_save (Instance key x) st).1 ∧
     (ordinary_row st (notebook_product x) →
      raised (Product_save (Instance key x) st).1 = None →
      ∃ self',
        (Product_save (Instance key (NoteBook_resized bytes x)) st).1
          = Ok self' ∧
        fields self' = NoteBook_resized bytes x ∧
        persisted self'
          (Product_save (Instance key (NoteBook_resized bytes x)) st).2)) ∧
  (∀ x : Smartphone,
     raised (Product_save (Instance key (Smartphone_resized bytes x)) st).1
       = raised (Product_save (Instance key x) st).1 ∧
     (ordinary_row st (smartphone_product x) →
      raised (Product_save (Instance key x) st).1 = None →
      ∃ self',
        (Product_save (Instance key (Smartphone_resized bytes x)) st).1
          = Ok self' ∧
        fields self' = Smartphone_resized bytes x ∧
        persisted self'
          (Product_save (Instance key (Smartphone_resized bytes x)) st).2)) ∧
  MAX_IMAGE_SIZE = 3145728.
Proof.
  split; [|split; [|reflexivity]].
  - intros x. rewrite NoteBook_resized_save.
    destruct (image (notebook_product x)) as [img|] eqn:Himg.
    + rewrite (Product_save_cases (Instance key x) img st) by exact Himg.
      destruct (decompression_bomb img); [done|].
      repeat case_bool_decide; try done.
      pose proof (Model_save_persists (Instance key (NoteBook_resized bytes x))
                    st) as Hsaved.
      rewrite !Model_save_run in *.
      change (refusal st (Instance key (NoteBook_resized bytes x)))
        with (refusal st (Instance key x)) in *.
      destruct (refusal st (Instance key x)); [done|].
      split; [done|]. intros _ _. by apply Hsaved.
    + unfold Product_save. cbn. by rewrite Himg.
  - intros x. rewrite Smartphone_resized_save.
    destruct (image (smartphone_product x)) as [img|] eqn:Himg.
    + rewrite (Product_save_cases (Instance key x) img st) by exact Himg.
      destruct (decompression_bomb img); [done|].
      repeat case_bool_decide; try done.
      pose proof (Model_save_persists
                    (Instance key (Smartphone_resized bytes x)) st) as Hsaved.
      rewrite !Model_save_run in *.
      change (refusal st (Instance key (Smartphone_resized bytes x)))
        with (refusal st (Instance key x)) in *.
      destruct (refusal st (Instance key x)); [done|].
      split; [done|]. intros _ _. by apply Hsaved.
    + unfold Product_save. cbn. by rewrite Himg.
Qed.

(** C1, the claim as first stated fails: a 300 by 900 image has a
    dimension above 800, yet saving it raises
    [MinResolutionErrorException], not [MaxResolutionErrorException]. *)
Lemma Product_save_wide_image_fails_low :
  above_maximum (photo 300 900 204800) ∧
  (Product_save (new_notebook 300 900 204800) iphone_shop).1
    = Raise MinResolutionErrorException ∧
  (Product_save (new_notebook 300 900 204800) iphone_shop).1
    ≠ Raise MaxResolutionErrorException.
Proof.
  split; [right; reflexivity|]. split; [reflexivity|discriminate].
Qed.

(** C9, the claim as first stated fails: an image of 300 by 600000
    pixels has a dimension below 400 and one above 800, yet saving it
    raises neither resolution error: [Image.open] refuses it. *)
Lemma Product_save_huge_image_fails_earlier :
  below_minimum (photo 300 600000 204800) ∧
  above_maximum (photo 300 600000 204800) ∧
  Product_save (new_notebook 300 600000 204800) iphone_shop
    = (Raise DecompressionBombError, iphone_shop) ∧
  (Product_save (new_notebook 300 600000 204800) iphone_shop).1
    ≠ Raise MinResolutionErrorException.
Proof.
  split; [left; reflexivity|]. split; [right; reflexivity|].
  split; [reflexivity|discriminate].
Qed.

(** C10, the claim as first stated fails: a notebook with a 600 by 800
    image, within the bounds, is not saved when its slug is that of a
    stored notebook. *)
Lemma Product_save_in_bounds_not_saved :
  in_bounds (photo 600 800 204800) ∧
  Product_save (Instance None (notebook 1 "macbook" (photo 600 800 204800)))
    stocked_shop
    = (Raise IntegrityError, stocked_shop).
Proof. split; [unfold in_bounds; simpl; lia|reflexivity]. Qed.

(** An image of 20000 by 20000 pixels, above the maximum and not below
    the minimum, does not reach the resolution checks either. *)
Example Product_save_huge_image_not_high :
  above_maximum (photo 20000 20000 204800) ∧
  Product_save (new_notebook 20000 20000 204800) iphone_shop
    = (Raise DecompressionBombError, iphone_shop).
Proof. split; [left; reflexivity|reflexivity]. Qed.

(** The three scenarios of the specification: 300 by 300 fails low, 801
    by 801 fails high, 500 by 600 is stored; and a notebook that takes
    the slug of another is refused by the database. *)
Lemma Product_save_outcome_witness :
  Product_save (new_notebook 300 300 204800) iphone_shop
    = (Raise MinResolutionErrorException, iphone_shop) ∧
  Product_save (new_notebook 801 801 204800) iphone_shop
    = (Raise MaxResolutionErrorException, iphone_shop) ∧
  (∃ self', (Product_save (new_notebook 500 600 204800) iphone_shop).1
              = Ok self' ∧
            fields self' = fields (new_notebook 500 600 204800) ∧
            persisted self'
              (Product_save (new_notebook 500 600 204800) iphone_shop).2) ∧
  Product_save (Instance None (notebook 1 "macbook" (photo 500 600 204800)))
    stocked_shop
    = (Raise IntegrityError, stocked_shop).
Proof.
  split; [|split; [|split]].
  - destruct (Product_save_outcome (new_notebook 300 300 204800)
                (photo 300 300 204800) iphone_shop) as (_ & Hlow & _);
      [reflexivity|unfold opens; simpl; lia|ordinary|].
    apply Hlow. left. reflexivity.
  - destruct (Product_save_outcome (new_notebook 801 801 204800)
                (photo 801 801 204800) iphone_shop) as (_ & _ & Hhigh & _);
      [reflexivity|unfold opens; simpl; lia|ordinary|].
    apply Hhigh; [left; reflexivity|]. unfold below_minimum. simpl. lia.
  - destruct (Product_save_outcome (new_notebook 500 600 204800)
                (photo 500 600 204800) iphone_shop) as (Hin & _ & _);
      [reflexivity|unfold opens; simpl; lia|ordinary|].
    apply Hin. split; [unfold in_bounds; simpl; lia|reflexivity].
  - destruct (Product_save_outcome
                (Instance None (notebook 1 "macbook" (photo 500 600 204800)))
                (photo 500 600 204800) stocked_shop) as (_ & _ & _ & Hdb);
      [reflexivity|unfold opens; simpl; lia|ordinary|].
    apply Hdb; [unfold in_bounds; simpl; lia|reflexivity].
Defined.

Lemma Product_save_minimum_first_witness :
  Product_save (new_notebook 300 900 204800) iphone_shop
    = (Raise MinResolutionErrorException, iphone_shop) ∧
  (Product_save (new_notebook 300 900 204800) iphone_shop).1
    ≠ Raise MaxResolutionErrorException.
Proof.
  apply (Product_save_minimum_first (new_notebook 300 900 204800)
           (photo 300 900 204800) iphone_shop).
  - reflexivity.
  - unfold opens. simpl. lia.
  - left. reflexivity.
  - right. reflexivity.
Defined.

(** A notebook with a 600 by 800 image of four megabytes, more than
    [MAX_IMAGE_SIZE], is stored like the one of 200 kilobytes. *)
Lemma Product_save_ignores_size_witness :
  4194304 > MAX_IMAGE_SIZE ∧
  ∃ self',
    (Product_save (new_notebook 600 800 4194304) iphone_shop).1 = Ok self' ∧
    fields self' = fields (new_notebook 600 800 4194304) ∧
    persisted self' (Product_save (new_notebook 600 800 4194304) iphone_shop).2.
Proof.
  split; [reflexivity|].
  destruct (Product_save_ignores_size iphone_shop None 4194304)
    as (Hnotebook & _).
  destruct (Hnotebook (notebook 1 "zenbook" (photo 600 800 204800)))
    as (_ & Hsaved).
  apply Hsaved; [ordinary|reflexivity].
Defined.

(** ** [sorted] and [order_by] *)

Section Sorted.
Context {A : Type} (key : A → Z).

Lemma insert_desc_perm x ys : insert_desc key x ys ≡ₚ x :: ys.
Proof.
  induction ys as [|y ys IH]; simpl; [done|].
  case_bool_decide; [|done]. rewrite IH. apply Permutation_swap.
Qed.

Lemma sorted_reverse_perm xs : sorted_reverse key xs ≡ₚ xs.
Proof.
  induction xs as [|x xs IH]; simpl; [done|].
  rewrite insert_desc_perm. by rewrite IH.
Qed.

Lemma insert_desc_sorted x ys :
  StronglySorted (descending key) ys →
  StronglySorted (descending key) (insert_desc key x ys).
Proof.
  induction 1 as [|y ys Hs IH Hy]; simpl.
  - repeat constructor.
  - case_bool_decide as Hlt.
    + constructor; [done|].
      rewrite Forall_forall in Hy |- *. intros z Hz.
      rewrite insert_desc_perm in Hz. apply elem_of_cons in Hz as [->|Hz].
      * unfold descending. lia.
      * by apply Hy.
    + constructor; [by constructor|].
      constructor; [unfold descending; lia|].
      rewrite Forall_forall in Hy |- *. intros z Hz. specialize (Hy z Hz).
      unfold descending in *. lia.
Qed.

Lemma sorted_reverse_sorted xs :
  StronglySorted (descending key) (sorted_reverse key xs).
Proof.
  induction xs as [|x xs IH]; simpl; [constructor|].
  by apply insert_desc_sorted.
Qed.

Lemma StronglySorted_lookup (l : list A) i j x y :
  StronglySorted (descending key) l →
  l !! i = Some x → l !! j = Some y → (i < j)%nat → descending key x y.
Proof.
  intros Hs. revert i j.
  induction Hs as [|z l Hs IH Hz]; intros i j Hi Hj Hij; [done|].
  destruct j as [|j]; [lia|]. simpl in Hj. destruct i as [|i]; simpl in Hi.
  - injection Hi as ->. rewrite Forall_forall in Hz. apply Hz.
    by eapply list_elem_of_lookup_2.
  - eapply IH; eauto. lia.
Qed.

(** An inserted element passes the elements of greater key and stops
    before the first that has none. *)
Lemma insert_desc_app x l1 l2 :
  Forall (λ y, key x < key y) l1 →
  match l2 with [] => True | y :: _ => key y ≤ key x end →
  insert_desc key x (l1 ++ l2) = l1 ++ x :: l2.
Proof.
  induction 1 as [|y l1 Hy _ IH]; simpl; intros H2.
  - destruct l2 as [|y l2]; [done|]. simpl. case_bool_decide; [lia|done].
  - case_bool_decide; [|lia]. by rewrite IH.
Qed.

End Sorted.

(** Sorting on a boolean key, largest first, is a stable partition. *)
Lemma sorted_reverse_bool {A} (f : A → bool) (xs : list A) :
  sorted_reverse (λ x, Z.b2z (f x)) xs =
  List.filter f xs ++ List.filter (λ x, negb (f x)) xs.
Proof.
  induction xs as [|x xs IH]; simpl; [done|]. rewrite IH.
  destruct (f x) eqn:Hx; simpl.
  - destruct (List.filter f xs ++ _) as [|y l] eqn:E; simpl; [done|].
    case_bool_decide as Hlt; [|done]. rewrite Hx in Hlt.
    destruct (f y); simpl in Hlt; lia.
  - apply insert_desc_app.
    + apply Forall_forall. intros y Hy.
      apply list_elem_of_In, filter_In in Hy as [_ ->].
      simpl. rewrite Hx. simpl. lia.
    + destruct (List.filter (λ x, negb (f x)) xs) as [|y l] eqn:E; [done|].
      assert (In y (List.filter (λ x, negb (f x)) xs)) as Hy
        by (rewrite E; by left).
      apply filter_In in Hy as [_ Hy]. apply negb_true_iff in Hy.
      simpl. rewrite Hx, Hy. simpl. lia.
Qed.

(** [.order_by('-id')[:n]] returns the [n] most recent rows. *)
Lemma slice_order_by_most_recent {A} (n : nat) (t : table A) :
  most_recent n t (slice n (order_by_desc_id t)).
Proof.
  unfold most_recent, slice, order_by_desc_id.
  pose proof (sorted_reverse_perm fst t) as Hp.
  pose proof (sorted_reverse_sorted fst t) as Hs.
  set (l := sorted_reverse fst t) in *.
  split; [|split].
  - rewrite length_take. by rewrite (Permutation_length Hp).
  - intros i j x y Hi Hj Hij.
    apply lookup_take_Some in Hi as [Hi _].
    apply lookup_take_Some in Hj as [Hj _].
    apply (StronglySorted_lookup fst l i j x y Hs Hi Hj Hij).
  - exists (drop n l). split.
    + by rewrite take_drop.
    + intros x y Hx Hy. rewrite <- (take_drop n l) in Hs.
      apply (StronglySorted_app_1_elem_of _ _ _ _ _ Hs Hx Hy).
Qed.

(** ** The main page *)

Lemma extend_with_latest_products (st : Store) (cts : table ContentType)
    (acc : list Obj) :
  Forall (λ r, product_type r.2) cts →
  extend_with_latest cts acc st =
    (Ok (acc ++ concat (products_of_type (latest_notebooks st)
                          (latest_smartphones st)
                          <$> (model <$> cts.*2))), st).
Proof.
  intros Hcts. revert acc.
  induction Hcts as [|r cts Hr _ IH]; intros acc; simpl.
  - run. by rewrite app_nil_r.
  - destruct Hr as [-> | ->]; simpl; run; simpl; rewrite IH;
      by rewrite <- app_assoc.
Qed.

Lemma type_tag_cases t : t ∈ type_tags → t = "notebook" ∨ t = "smartphone".
Proof. unfold type_tags. rewrite !elem_of_cons, elem_of_nil. tauto. Qed.

Lemma registered_product_type (st : Store) (r : Z * ContentType) :
  registry_ok st → r ∈ django_content_type st → model r.2 ∈ type_tags →
  product_type r.2.
Proof.
  intros [Hnd Hreg] Hr Htag. destruct (Hreg _ Htag) as [k Hk].
  assert (r = (k, {| app_label := "coreapp"; model := model r.2 |})) as Hrk.
  { rewrite <- list_fmap_compose in Hnd.
    by apply (NoDup_fmap_eq (model ∘ snd) (django_content_type st)). }
  apply type_tag_cases in Htag. unfold product_type.
  rewrite Hrk. simpl. destruct Htag as [-> | ->]; auto.
Qed.

Lemma products_of_type_typed nbs sps tags x :
  x ∈ concat (products_of_type nbs sps <$> tags) →
  class_of x = NoteBookClass ∨ class_of x = SmartphoneClass.
Proof.
  intros Hx. apply list_elem_of_In, in_concat in Hx as (l & Hl & Hx).
  apply list_elem_of_In in Hl, Hx.
  apply list_elem_of_fmap in Hl as (t & -> & _).
  unfold products_of_type in Hx.
  destruct (String.eqb t "notebook").
  { apply list_elem_of_fmap in Hx as (? & -> & _). by left. }
  destruct (String.eqb t "smartphone").
  { apply list_elem_of_fmap in Hx as (? & -> & _). by right. }
  by apply elem_of_nil in Hx.
Qed.

(** C7: for requested type tags [args], with every type tag registered,
    the main-page query returns the five most recent notebooks and the
    five most recent smartphones (fewer when a table holds fewer), one
    block per requested type and each type once; with [with_respect_to]
    among the requested types the blocks are reordered stably, the
    products of that type first; without it, or when it is not requested,
    the sequence comes back as built.  The store is not changed. *)
Theorem latest_products_main_page (st : Store) (args : list string)
    (kwargs : gmap string string) :
  registry_ok st → Forall (λ t, t ∈ type_tags) args →
  ∃ (tags : list string) (nbs : table NoteBook) (sps : table Smartphone),
    NoDup tags ∧ (∀ t, t ∈ tags ↔ t ∈ args) ∧
    most_recent 5 (coreapp_notebook st) nbs ∧
    most_recent 5 (coreapp_smartphone st) sps ∧
    get_products_for_main_page args kwargs st =
      (Ok (match kwargs !! "with_respect_to" with
           | Some w =>
               if bool_decide (w ∈ args)
               then prioritized w (concat (products_of_type nbs sps <$> tags))
               else concat (products_of_type nbs sps <$> tags)
           | None => concat (products_of_type nbs sps <$> tags)
           end), st).
Proof.
  intros Hok Hargs.
  set (cts := List.filter (λ r : Z * ContentType, contains args (model r.2))
                (django_content_type st)).
  exists (model <$> cts.*2), (latest_notebooks st), (latest_smartphones st).
  assert (Forall (λ r : Z * ContentType, product_type r.2) cts) as Hcts.
  { apply Forall_forall. intros r Hr.
    apply elem_of_List_filter in Hr as [Hr Hin].
    apply contains_spec in Hin. rewrite Forall_forall in Hargs.
    apply (registered_product_type st); [done|done|by apply Hargs]. }
  split; [|split; [|split; [|split]]].
  - rewrite <- list_fmap_compose. apply NoDup_fmap_List_filter.
    destruct Hok as [Hnd _]. by rewrite <- list_fmap_compose in Hnd.
  - intros t. rewrite <- list_fmap_compose. split.
    + intros (r & -> & Hr)%list_elem_of_fmap.
      apply elem_of_List_filter in Hr as [_ Hr]. by apply contains_spec in Hr.
    + intros Ht. rewrite Forall_forall in Hargs.
      destruct Hok as [_ Hreg]. destruct (Hreg t (Hargs t Ht)) as [k Hk].
      apply list_elem_of_fmap. eexists.
      split; [|apply elem_of_List_filter; split; [exact Hk|]].
      * done.
      * by apply contains_spec.
  - apply slice_order_by_most_recent.
  - apply slice_order_by_most_recent.
  - unfold get_products_for_main_page, objects_filter. run.
    cbn [get_table ContentType_Model]. fold cts.
    rewrite (extend_with_latest_products st cts [] Hcts). cbv beta iota.
    rewrite app_nil_l.
    set (seq := concat _).
    destruct (kwargs !! "with_respect_to") as [w|]; [|done].
    case_bool_decide as Hw.
    + rewrite Forall_forall in Hargs. pose proof (Hargs w Hw) as Htag.
      assert (contains args w = true) as -> by by apply contains_spec.
      destruct Hok as [_ Hreg]. destruct (Hreg w Htag) as [k Hk].
      assert (truthy (Some w) = true) as ->.
      { apply type_tag_cases in Htag as [-> | ->]; reflexivity. }
      cbn [get_table ContentType_Model].
      rewrite bool_decide_true.
      2:{ intros Hnil.
          assert (Hin : (k, {| app_label := "coreapp"; model := w |}) ∈
                    List.filter
                      (λ r : Z * ContentType, String.eqb (model r.2) w)
                      (django_content_type st)).
          { apply elem_of_List_filter. split; [done|].
            simpl. apply String.eqb_refl. }
          rewrite Hnil in Hin. by apply elem_of_nil in Hin. }
      rewrite sorted_reverse_bool. unfold prioritized.
      assert (∀ x, x ∈ seq →
                startswith (meta_model_name (class_of x)) w = of_type w x)
        as Hkey.
      { intros x Hx. apply products_of_type_typed in Hx. unfold of_type.
        apply type_tag_cases in Htag.
        destruct Hx as [-> | ->], Htag as [-> | ->]; reflexivity. }
      f_equal. f_equal. f_equal.
      * by apply List_filter_ext_elem.
      * apply List_filter_ext_elem. intros x Hx. by rewrite Hkey.
    + assert (contains args w = false) as ->.
      { apply not_true_is_false. by rewrite contains_spec. }
      destruct (truthy (Some w)); [|done]. by case_bool_decide.
Qed.

Lemma registry_ok_shop cats nbs sps carts :
  registry_ok (shop cats nbs sps carts).
Proof.
  split.
  - apply (bool_decide_unpack _). reflexivity.
  - intros tag [-> | ->]%type_tag_cases.
    + exists 8. right. left.
    + exists 9. right. right. left.
Defined.

(** The main page of a shop with seven notebooks and two smartphones,
    smartphones first. *)
Lemma latest_products_main_page_witness :
  ∃ (tags : list string) (nbs : table NoteBook) (sps : table Smartphone),
    NoDup tags ∧
    (∀ t, t ∈ tags ↔ t ∈ ["notebook"; "smartphone"]) ∧
    most_recent 5 (coreapp_notebook main_page_shop) nbs ∧
    most_recent 5 (coreapp_smartphone main_page_shop) sps ∧
    get_products_for_main_page ["notebook"; "smartphone"]
      {[ "with_respect_to" := "smartphone" ]} main_page_shop =
      (Ok (prioritized "smartphone"
             (concat (products_of_type nbs sps <$> tags))), main_page_shop).
Proof.
  destruct (latest_products_main_page main_page_shop
              ["notebook"; "smartphone"]
              {[ "with_respect_to" := "smartphone" ]})
    as (tags & nbs & sps & Hnd & Htags & Hnbs & Hsps & Hrun).
  - apply registry_ok_shop.
  - repeat constructor.
  - exists tags, nbs, sps.
    split; [exact Hnd|]. split; [exact Htags|]. split; [exact Hnbs|].
    split; [exact Hsps|]. exact Hrun.
Defined.

(** On the main page of that shop: the two smartphones, newest first,
    then the five newest of the seven notebooks. *)
Example main_page_smartphones_first :
  (λ x, (meta_model_name (class_of x), obj_pk x)) <$>
    default []
      (match (get_products_for_main_page ["notebook"; "smartphone"]
                {[ "with_respect_to" := "smartphone" ]} main_page_shop).1 with
       | Ok l => Some l
       | Raise _ => None
       end)
  = [("smartphone", 2); ("smartphone", 1); ("notebook", 7); ("notebook", 6);
     ("notebook", 5); ("notebook", 4); ("notebook", 3)].
Proof. vm_compute. reflexivity. Qed.

(** ** Sidebar counts *)

(** Counting a column of joined rows. *)
Lemma count_first_column (c : list (option Z)) (R : list (list (option Z))) :
  count_column 0 (x ← c; cons x <$> R) =
  Z.of_nat (length (List.filter not_null c)) * Z.of_nat (length R).
Proof.
  unfold count_column. rewrite <- Nat2Z.inj_mul. f_equal.
  induction c as [|x c IH]; [done|].
  change ((x :: c) ≫= (λ x, cons x <$> R))
    with ((cons x <$> R) ++ (c ≫= λ x, cons x <$> R)).
  rewrite List.filter_app, length_app, IH. clear IH.
  assert (length (List.filter
                    (λ row : list (option Z),
                       bool_decide (is_Some (mjoin (row !! 0%nat))))
                    (cons x <$> R))
          = if not_null x then length R else 0%nat) as ->.
  { induction R as [|row R IHR]; simpl; [by destruct (not_null x)|].
    unfold not_null in *. destruct x as [k|]; simpl in *.
    - f_equal. exact IHR.
    - exact IHR. }
  simpl. destruct (not_null x); simpl; lia.
Qed.

Lemma count_second_column (c : list (option Z)) (R : list (list (option Z))) :
  count_column 1 (x ← c; cons x <$> R)
  = Z.of_nat (length c) * count_column 0 R.
Proof.
  unfold count_column. rewrite <- Nat2Z.inj_mul. f_equal.
  induction c as [|x c IH]; [done|].
  change ((x :: c) ≫= (λ x, cons x <$> R))
    with ((cons x <$> R) ++ (c ≫= λ x, cons x <$> R)).
  rewrite List.filter_app, length_app, IH. clear IH. simpl. f_equal.
  induction R as [|row R IHR]; simpl; [done|].
  destruct (bool_decide _); simpl; [f_equal|]; exact IHR.
Qed.

Lemma left_join_not_null ids :
  List.filter not_null (left_join ids) = Some <$> ids.
Proof.
  destruct ids as [|k ids]; [done|]. unfold left_join.
  induction (k :: ids) as [|x l IH]; [done|].
  change (List.filter not_null (Some <$> x :: l))
    with (Some x :: List.filter not_null (Some <$> l)).
  by rewrite IH.
Qed.

Lemma left_join_length ids :
  Z.of_nat (length (left_join ids)) = Z.max 1 (Z.of_nat (length ids)).
Proof. destruct ids; simpl; [done|]. rewrite length_fmap. lia. Qed.

Lemma join_two_columns (c1 c2 : list (option Z)) :
  join_rows [c1; c2] = x ← c1; cons x <$> (y ← c2; cons y <$> [[]]).
Proof. reflexivity. Qed.

(** With two joins each count is multiplied by the size of the other
    side. *)
Lemma count_notebook_column ids1 ids2 :
  count_column 0 (join_rows [left_join ids1; left_join ids2]) =
  Z.of_nat (length ids1) * Z.max 1 (Z.of_nat (length ids2)).
Proof.
  rewrite join_two_columns, count_first_column.
  rewrite left_join_not_null, length_fmap. f_equal.
  rewrite <- left_join_length. f_equal.
  induction (left_join ids2) as [|x l IH]; [done|].
  change (length (x ← x :: l; cons x <$> [[]]))
    with (S (length (x ← l; cons x <$> [[]]))).
  by rewrite IH.
Qed.

Lemma count_smartphone_column ids1 ids2 :
  count_column 1 (join_rows [left_join ids1; left_join ids2]) =
  Z.of_nat (length ids2) * Z.max 1 (Z.of_nat (length ids1)).
Proof.
  rewrite join_two_columns, count_second_column, count_first_column.
  rewrite left_join_not_null, length_fmap, left_join_length. simpl. lia.
Qed.

Lemma annotated_values_counts (st : Store) (r : Z * Category) :
  annotated_values st (get_models_for_count ["notebook"; "smartphone"]) r
  = Ok (annotated st r).
Proof.
  unfold annotated_values.
  cbn [get_models_for_count fmap list_fmap mapM_result related_ids
       String.eqb Ascii.eqb Bool.eqb].
  cbn [imap foldr default_alias compose].
  rewrite count_notebook_column, count_smartphone_column.
  rewrite !length_fmap. reflexivity.
Qed.

Lemma annotate_values_ok (st : Store) (cats : table Category) :
  mapM_result
    (annotated_values st (get_models_for_count ["notebook"; "smartphone"]))
    cats
  = Ok (annotated st <$> cats).
Proof.
  induction cats as [|r cats IH]; [done|].
  cbn [mapM_result]. rewrite annotated_values_counts, IH. reflexivity.
Qed.

Lemma annotated_name st r : annotated st r !! "name" = Some (VStr (name r.2)).
Proof. unfold annotated. by simplify_map_eq. Qed.

Lemma annotated_slug st r :
  annotated st r !! "slug" = Some (VStr (category_slug r.2)).
Proof. unfold annotated. by simplify_map_eq. Qed.

Lemma sidebar_entry_known (st : Store) (r : Z * Category) :
  known_name (name r.2) →
  sidebar_entry (annotated st r) = Ok (sidebar_row st r).
Proof.
  intros Hk. unfold sidebar_entry, getitem.
  rewrite annotated_name, annotated_slug. cbn [as_key].
  unfold sidebar_row, count_by_name.
  destruct Hk as [-> | ->].
  - change (CATEGORY_NAME_COUNT_NAME !! "Ноутбуки")
      with (Some "notebook__count").
    unfold annotated. rewrite lookup_insert_eq. reflexivity.
  - change (CATEGORY_NAME_COUNT_NAME !! "Смартфоны")
      with (Some "smartphone__count").
    unfold annotated. rewrite lookup_insert_ne by done.
    rewrite lookup_insert_eq. reflexivity.
Qed.

Lemma sidebar_entry_unknown (st : Store) (r : Z * Category) :
  ¬ known_name (name r.2) →
  sidebar_entry (annotated st r) = Raise (KeyError (name r.2)).
Proof.
  intros Hk. unfold sidebar_entry, getitem.
  rewrite annotated_name, annotated_slug. cbn [as_key].
  unfold CATEGORY_NAME_COUNT_NAME.
  rewrite lookup_insert_ne by (intros Heq; apply Hk; by left).
  rewrite lookup_singleton_ne by (intros Heq; apply Hk; by right).
  reflexivity.
Qed.

Lemma known_name_dec n : Decision (known_name n).
Proof. unfold known_name. apply _. Qed.

Lemma sidebar_entries_known (st : Store) (cats : table Category) :
  Forall (λ r, known_name (name r.2)) cats →
  mapM_result sidebar_entry (annotated st <$> cats)
  = Ok (sidebar_row st <$> cats).
Proof.
  induction 1 as [|r cats Hr _ IH]; [done|].
  rewrite fmap_cons. cbn [mapM_result]. rewrite sidebar_entry_known by done.
  by rewrite IH.
Qed.

Lemma sidebar_entries_unknown (st : Store) (cats : table Category)
    (r : Z * Category) :
  r ∈ cats → ¬ known_name (name r.2) →
  ∃ k, mapM_result sidebar_entry (annotated st <$> cats) = Raise (KeyError k).
Proof.
  induction cats as [|r' cats IH]; [by intros ?%elem_of_nil|].
  intros Hin Hr. rewrite fmap_cons. cbn [mapM_result].
  destruct (known_name_dec (name r'.2)) as [Hk|Hk].
  - rewrite sidebar_entry_known by done.
    apply elem_of_cons in Hin as [-> | Hin]; [done|].
    destruct (IH Hin Hr) as [k ->]. by exists k.
  - rewrite sidebar_entry_unknown by done. by eexists.
Qed.

Lemma sidebar_run (st : Store) :
  get_categories_for_left_sidebar st =
  (mapM_result sidebar_entry (annotated st <$> scan_categories st), st).
Proof.
  unfold get_categories_for_left_sidebar, annotate_values. run.
  by rewrite annotate_values_ok.
Qed.

(** Whatever the engine's order, the query sees every category once. *)
Lemma scan_categories_perm (st : Store) :
  scan_categories st ≡ₚ coreapp_category st.
Proof. apply sorted_reverse_perm. Qed.

Lemma scan_categories_known (st : Store) :
  Forall (λ r, known_name (name r.2)) (coreapp_category st) →
  Forall (λ r, known_name (name r.2)) (scan_categories st).
Proof. by rewrite scan_categories_perm. Qed.

Lemma sidebar_known (st : Store) :
  Forall (λ r, known_name (name r.2)) (coreapp_category st) →
  ∃ entries,
    get_categories_for_left_sidebar st = (Ok entries, st) ∧
    entries ≡ₚ sidebar_row st <$> coreapp_category st.
Proof.
  intros Hk%scan_categories_known. rewrite sidebar_run.
  rewrite sidebar_entries_known by done.
  eexists. split; [reflexivity|]. by rewrite scan_categories_perm.
Qed.

(** C5, as amended: when every category is named 'Ноутбуки' or
    'Смартфоны', the sidebar operation returns one entry
    {name, slug, count} per category, in the order the database hands
    the categories out (the query asks for none), whose count is the
    one the category's name selects: for 'Ноутбуки' the notebook count
    n * max(1, s), for 'Смартфоны' the smartphone count s * max(1, n),
    where n and s are the numbers of stored notebooks and smartphones of
    the category.  That count is the number of stored products of both
    variants in the category whenever the category holds only products
    of the variant its name stands for, a category without products
    included (count 0).  When some category has another name the
    operation raises [KeyError]. *)
Theorem sidebar_counts_by_name (st : Store) :
  (Forall (λ r, known_name (name r.2)) (coreapp_category st) →
   ∃ entries,
     get_categories_for_left_sidebar st = (Ok entries, st) ∧
     entries ≡ₚ
       (λ r, entry (name r.2) (category_slug r.2) (count_by_name st r))
         <$> coreapp_category st) ∧
  (∀ r, single_variant st r → count_by_name st r = products_in st r.1) ∧
  (∀ r, r ∈ coreapp_category st → ¬ known_name (name r.2) →
        ∃ k, get_categories_for_left_sidebar st = (Raise (KeyError k), st)).
Proof.
  split; [|split].
  - apply sidebar_known.
  - intros r. unfold single_variant, count_by_name, products_in.
    destruct (String.eqb _ _); intros ->; lia.
  - intros r Hr Hk. rewrite sidebar_run.
    rewrite <- scan_categories_perm in Hr.
    destruct (sidebar_entries_unknown st _ r Hr Hk) as [k ->]. by exists k.
Qed.

(** C5, the claim as first stated fails: a category named "Tablets",
    with no product at all, makes the operation raise [KeyError] instead
    of reporting 0; and the category 'Ноутбуки' holding two notebooks and
    one smartphone is reported with count 2, while it holds three
    products. *)
Lemma sidebar_count_counterexample :
  (3, tablets_category) ∈ coreapp_category tablets_shop ∧
  products_in tablets_shop 3 = 0 ∧
  (get_categories_for_left_sidebar tablets_shop).1
    = Raise (KeyError "Tablets") ∧
  products_in mixed_shop 1 = 3 ∧
  (get_categories_for_left_sidebar mixed_shop).1
    = Ok [entry "Ноутбуки" "notebooks" 2; entry "Смартфоны" "smartphones" 0].
Proof.
  split; [right; left|]. split; [reflexivity|].
  split; [vm_compute; reflexivity|]. split; [reflexivity|].
  vm_compute. reflexivity.
Qed.

(** The sidebar of a shop whose categories hold their own variant only:
    one smartphone in 'Смартфоны', nothing in 'Ноутбуки'. *)
Lemma sidebar_counts_by_name_witness :
  (∃ entries,
     get_categories_for_left_sidebar iphone_shop = (Ok entries, iphone_shop) ∧
     entries ≡ₚ
       [entry "Ноутбуки" "notebooks" 0; entry "Смартфоны" "smartphones" 1]) ∧
  count_by_name iphone_shop (2, smartphones_category)
    = products_in iphone_shop 2 ∧
  ∃ k, get_categories_for_left_sidebar tablets_shop
         = (Raise (KeyError k), tablets_shop).
Proof.
  split; [|split].
  - destruct (sidebar_counts_by_name iphone_shop) as (Hknown & _ & _).
    apply Hknown.
    constructor; [by left|]. constructor; [by right|]. constructor.
  - destruct (sidebar_counts_by_name iphone_shop) as (_ & Hsingle & _).
    apply (Hsingle (2, smartphones_category)). reflexivity.
  - destruct (sidebar_counts_by_name tablets_shop) as (_ & _ & Hunknown).
    apply (Hunknown (3, tablets_category)); [right; left|].
    intros [Hn | Hn]; discriminate Hn.
Defined.

(** ** Resolving a product from its type tag and slug *)

Lemma resolve_run (st : Store) (tag s : string) :
  resolve tag s st =
  match CT_MODEL_MODEL_CLASS !! tag with
  | None => (Raise (KeyError tag), st)
  | Some c =>
      match class_objects c st with
      | (Ok queryset, st') =>
          get_object c queryset {[ "ct_model" := tag; "slug" := s ]} st'
      | (Raise e, st') => (Raise e, st')
      end
  end.
Proof.
  unfold resolve, ProductDetailView_dispatch, getitem. run.
  rewrite lookup_insert_eq.
  destruct (CT_MODEL_MODEL_CLASS !! tag) as [c|]; [|done].
  by destruct (class_objects c st) as [[q|e] st'].
Qed.

Lemma get_object_run (c : ModelClass) (q : list Obj) (tag s : string)
    (st : Store) :
  get_object c q {[ "ct_model" := tag; "slug" := s ]} st =
  match List.filter (λ o, bool_decide (obj_slug o = Some s)) q with
  | [] => (Raise Http404, st)
  | [o] => (Ok o, st)
  | _ :: _ :: _ => (Raise (MultipleObjectsReturned (meta_model_name c)), st)
  end.
Proof.
  unfold get_object. rewrite lookup_insert_ne by done.
  rewrite lookup_singleton_eq.
  by destruct (List.filter _ q) as [|? [|? ?]].
Qed.

Section Resolve.
Context {A : Type} (f : A → Product) (wrap : Z * A → Obj).
Hypothesis wrap_slug : ∀ r, obj_slug (wrap r) = Some (slug (f r.2)).

Lemma filter_found (t : table A) (r : Z * A) :
  unique_slugs f t → r ∈ t →
  List.filter (λ o, bool_decide (obj_slug o = Some (slug (f r.2))))
    (wrap <$> t)
  = [wrap r].
Proof.
  intros Hu Hr. rewrite List_filter_fmap.
  rewrite (List_filter_unique (λ r, slug (f r.2)) _ t r); [done|done|done|].
  intros y. rewrite bool_decide_eq_true, wrap_slug. split; congruence.
Qed.

Lemma filter_missing (t : table A) (s : string) :
  (∀ r, r ∈ t → slug (f r.2) ≠ s) →
  List.filter (λ o, bool_decide (obj_slug o = Some s)) (wrap <$> t) = [].
Proof.
  intros Hno. rewrite List_filter_fmap. rewrite List_filter_none; [done|].
  intros r Hr. apply bool_decide_eq_false. rewrite wrap_slug.
  intros [=]. by apply (Hno r).
Qed.

End Resolve.

(** C8: [resolve tag slug] fails with [KeyError] (the unknown-type
    error) when the tag is neither "notebook" nor "smartphone"; for a tag
    of the enumeration it returns the stored product of that class with
    that slug, slugs being unique within the class, and fails with
    [Http404] (not found) when no product of the class has the slug.  The
    store is not changed. *)
Theorem resolve_outcomes (st : Store) (tag s : string) :
  (tag ∉ type_tags → resolve tag s st = (Raise (KeyError tag), st)) ∧
  (tag = "notebook" →
     (∀ r, unique_slugs notebook_product (coreapp_notebook st) →
           r ∈ coreapp_notebook st → slug (notebook_product r.2) = s →
           resolve tag s st = (Ok (ONoteBook r), st)) ∧
     ((∀ r, r ∈ coreapp_notebook st → slug (notebook_product r.2) ≠ s) →
      resolve tag s st = (Raise Http404, st))) ∧
  (tag = "smartphone" →
     (∀ r, unique_slugs smartphone_product (coreapp_smartphone st) →
           r ∈ coreapp_smartphone st → slug (smartphone_product r.2) = s →
           resolve tag s st = (Ok (OSmartphone r), st)) ∧
     ((∀ r, r ∈ coreapp_smartphone st → slug (smartphone_product r.2) ≠ s) →
      resolve tag s st = (Raise Http404, st))).
Proof.
  rewrite resolve_run. split; [|split].
  - intros Htag. unfold CT_MODEL_MODEL_CLASS, type_tags in *.
    rewrite lookup_insert_ne by (intros <-; apply Htag; by left).
    rewrite lookup_singleton_ne by (intros <-; apply Htag; right; by left).
    done.
  - intros ->.
    change (CT_MODEL_MODEL_CLASS !! "notebook") with (Some NoteBookClass).
    cbn [class_objects]. unfold objects_all. run.
    cbn [get_table NoteBook_Model]. rewrite get_object_run. split.
    + intros r Hu Hr <-. by rewrite (filter_found notebook_product ONoteBook).
    + intros Hno. by rewrite (filter_missing notebook_product ONoteBook).
  - intros ->.
    change (CT_MODEL_MODEL_CLASS !! "smartphone") with (Some SmartphoneClass).
    cbn [class_objects]. unfold objects_all. run.
    cbn [get_table Smartphone_Model]. rewrite get_object_run. split.
    + intros r Hu Hr <-.
      by rewrite (filter_found smartphone_product OSmartphone).
    + intros Hno. by rewrite (filter_missing smartphone_product OSmartphone).
Qed.

(** In the shop that sells one iphone: a tag outside the enumeration, the
    iphone found, and a slug no smartphone has. *)
Lemma resolve_outcomes_witness :
  resolve "tablet" "ipad" iphone_shop
    = (Raise (KeyError "tablet"), iphone_shop) ∧
  resolve "smartphone" "iphone-11" iphone_shop
    = (Ok (OSmartphone (1, smartphone 2 "iphone-11" 99900)), iphone_shop) ∧
  resolve "smartphone" "nokia-3310" iphone_shop
    = (Raise Http404, iphone_shop).
Proof.
  split; [|split].
  - destruct (resolve_outcomes iphone_shop "tablet" "ipad") as (Hunknown & _).
    apply Hunknown. unfold type_tags.
    intros [Heq | [Heq | Hnil]%elem_of_cons]%elem_of_cons;
      [discriminate Heq|discriminate Heq|by apply elem_of_nil in Hnil].
  - destruct (resolve_outcomes iphone_shop "smartphone" "iphone-11")
      as (_ & _ & Hsmartphone).
    destruct (Hsmartphone eq_refl) as [Hfound _].
    apply (Hfound (1, smartphone 2 "iphone-11" 99900)).
    + apply NoDup_singleton.
    + left.
    + reflexivity.
  - destruct (resolve_outcomes iphone_shop "smartphone" "nokia-3310")
      as (_ & _ & Hsmartphone).
    destruct (Hsmartphone eq_refl) as [_ Hmissing].
    apply Hmissing. intros r Hr.
    apply list_elem_of_singleton in Hr as ->. discriminate.
Defined.

(** ** The cart *)



(** [qty] is not an attribute of a cart line. *)
Lemma CartProduct_save_raises (self : instance CartProduct) (st : Store) :
  CartProduct_save self st = (Raise (AttributeError "qty"), st).
Proof. reflexivity. Qed.


Lemma Product_get_or_create_state {A} `{ProductModel A} (wrap : Z * A → Obj)
    (s : option string) (st : Store) :
  product (from_slug (default "" s)) = bare_product (default "" s) →
  (Product_get_or_create A wrap s st).2 = st.
Proof.
  intros Hbare. unfold Product_get_or_create, objects_filter. run.
  destruct (List.filter _ _) as [|r [|r' rows]]; try done.
  unfold Product_save. cbn [fields]. rewrite Hbare.
  cbn [image bare_product Image_open]. by run.
Qed.



(** C2, on the code: customer 1 has an active cart and the shop sells
    "iphone-11"; adding it to the cart raises [NameError] at the name
    [product_id], the first time and the second time, and the cart has no
    line afterwards, where the specification wants one line of
    quantity 2. *)
Theorem AddToCartView_get_twice_no_line :
  AddToCartView_get customer_request add_iphone iphone_shop
    = (Raise (NameError "product_id"), iphone_shop) ∧
  AddToCartView_get customer_request add_iphone
    (AddToCartView_get customer_request add_iphone iphone_shop).2
    = (Raise (NameError "product_id"), iphone_shop) ∧
  active_carts_of iphone_shop 1 = [(1, a_cart false)] ∧
  lines_of iphone_shop 1 = [].
Proof.
  split; [vm_compute; reflexivity|]. split; [vm_compute; reflexivity|].
  split; reflexivity.
Qed.




(** C4, on the code: saving a cart line raises [AttributeError] at
    [self.qty] whatever the line and the store, before any price is read
    and before anything is stored; a line of two iphones is not saved and
    its total is not computed. *)
Theorem CartProduct_save_never_saves :
  (∀ self st, CartProduct_save self st = (Raise (AttributeError "qty"), st)) ∧
  CartProduct_getattr two_iphones "quantity" = Ok (VInt 2) ∧
  CartProduct_getattr two_iphones "qty" = Raise (AttributeError "qty") ∧
  CartProduct_save two_iphones iphone_shop
    = (Raise (AttributeError "qty"), iphone_shop) ∧
  coreapp_cartproduct (CartProduct_save two_iphones iphone_shop).2 = [].
Proof.
  split; [exact CartProduct_save_raises|]. repeat split.
Qed.

(** The part of C6 that holds: a customer without any cart gets
    [DoesNotExist] for the cart. *)
Lemma CartView_get_no_cart (request : HttpRequest) (st : Store)
    (customer : Z * Customer) :
  List.filter (λ r, bool_decide (user r.2 = request_user request))
    (coreapp_customer st) = [customer] →
  (∀ r, r ∈ coreapp_cart st → owner r.2 ≠ customer.1) →
  CartView_get request st = (Raise (DoesNotExist "cart"), st).
Proof.
  intros Hcustomer Hnone. unfold CartView_get, objects_get, objects_filter.
  run. cbn [get_table Customer_Model Cart_Model]. rewrite Hcustomer.
  cbn [get_one]. rewrite List_filter_none; [done|].
  intros r Hr. apply bool_decide_eq_false. by apply Hnone.
Qed.

(** C6, on the code: [CartView.get] looks the cart up by owner alone.
    For a customer whose only cart is ordered it returns that cart, where
    [AddToCartView.get], which also asks for [in_order=False], reports
    that there is none; for a customer with an ordered and an active cart
    it raises [MultipleObjectsReturned] instead of returning the active
    one. *)
Theorem CartView_get_ignores_in_order :
  active_carts_of ordered_shop 1 = [] ∧
  (CartView_get customer_request ordered_shop).1
    = Ok (render "cart.html"
            {[ "cart" := CObj (OCart (1, a_cart true));
               "categories" :=
                 CDicts [entry "Ноутбуки" "notebooks" 0;
                         entry "Смартфоны" "smartphones" 1] ]}) ∧
  (AddToCartView_get customer_request add_iphone ordered_shop).1
    = Raise (DoesNotExist "cart") ∧
  active_carts_of two_carts_shop 1 = [(2, a_cart false)] ∧
  (CartView_get customer_request two_carts_shop).1
    = Raise (MultipleObjectsReturned "cart").
Proof.
  split; [reflexivity|]. split; [vm_compute; reflexivity|].
  split; [vm_compute; reflexivity|]. split; [reflexivity|].
  vm_compute. reflexivity.
Qed.

(** * Further properties *)

(** ** Saving and finding products *)

Section SaveMore.
Context {A : Type} `{ProductModel A}.


Lemma Product_save_new (x : A) (img : ImageFile) (st : Store) :
  image (product x) = Some img → opens img → in_bounds img →
  refusal st (Instance None x) = None →
  Product_save (Instance None x) st =
    (Ok (Instance (Some (next_pk (get_table st))) x),
     set_table (get_table st ++ [(next_pk (get_table st), x)]) st).
Proof.
  intros Himg Hopen%opens_iff Hin Hok.
  rewrite (Product_save_cases (Instance None x) img st Himg), Hopen.
  apply in_bounds_iff in Hin as [Hlow Hhigh].
  rewrite !bool_decide_false by done. by rewrite Model_save_run, Hok.
Qed.
End SaveMore.

(** A row the database takes has a slug of its own. *)
Lemma taken_false {A} (f : A → string) (t : list (Z * A)) (key : option Z)
    (s : string) r :
  taken f t key s = false → r ∈ t → Some r.1 ≠ key → f r.2 ≠ s.
Proof.
  unfold taken. intros Hfree Hr Hkey Heq.
  assert (existsb (λ r, negb (bool_decide (Some r.1 = key))
                        && String.eqb (f r.2) s) t = true) as Htaken.
  { apply existsb_exists. exists r. split; [by apply list_elem_of_In|].
    rewrite bool_decide_false by done. by apply String.eqb_eq. }
  congruence.
Qed.

Lemma product_refusal_fresh (st : Store) (others : list (Z * Product))
    (p : Product) r :
  product_refusal st others None p = None → r ∈ others → slug r.2 ≠ slug p.
Proof.
  unfold product_refusal. intros Hok Hr.
  destruct (price p) as [d|], (category p) as [c|]; try done.
  unfold integrity in Hok.
  destruct (negb (has_row _ c)); [done|]. cbn [orb] in Hok.
  destruct (taken slug others None (slug p)) eqn:Hfree; [done|].
  by apply (taken_false slug others None).
Qed.

Lemma next_pk_gt {A} (t : table A) r : r ∈ t → r.1 < next_pk t.
Proof.
  unfold next_pk. induction t as [|r' t IH]; [by intros ?%elem_of_nil|].
  intros [->|Hr]%elem_of_cons; simpl; [lia|]. specialize (IH Hr). lia.
Qed.

Lemma sorted_reverse_snoc_max {A} (key : A → Z) (t : list A) (y : A) :
  (∀ r, r ∈ t → key r < key y) →
  sorted_reverse key (t ++ [y]) = y :: sorted_reverse key t.
Proof.
  induction t as [|x t IH]; intros Hmax; [done|].
  simpl. rewrite IH by (intros r Hr; apply Hmax; by right).
  simpl. rewrite bool_decide_true; [done|]. apply Hmax. by left.
Qed.

Lemma selected_type_tag (st : Store) (tag : string) :
  registry_ok st → tag ∈ type_tags →
  ∃ k, selected st [tag] = [(k, {| app_label := "coreapp"; model := tag |})].
Proof.
  intros [Hnd Hreg] Htag. destruct (Hreg tag Htag) as [k Hk]. exists k.
  unfold selected. rewrite <- list_fmap_compose in Hnd.
  apply (List_filter_unique (model ∘ snd) _ _ _ Hnd Hk).
  intros y. unfold contains. rewrite bool_decide_eq_true.
  rewrite list_elem_of_singleton. done.
Qed.

(** X2: a product saved for the first time, with an image [Image.open]
    returns and within the bounds, and a row the database does not refuse
    (a slug no stored product of its class has, a stored category, a
    price, of at most ten digits), is what [resolve] returns for the tag
    of its class and that slug, under the key the save gave it; for
    notebooks and for smartphones. *)
Theorem saved_product_round_trip (st : Store) :
  (∀ (x : NoteBook) (img : ImageFile),
     image (notebook_product x) = Some img → opens img → in_bounds img →
     ordinary_row st (notebook_product x) →
     refusal st (Instance None x) = None →
     resolve "notebook" (slug (notebook_product x))
       (Product_save (Instance None x) st).2
     = (Ok (ONoteBook (next_pk (coreapp_notebook st), x)),
        (Product_save (Instance None x) st).2)) ∧
  (∀ (x : Smartphone) (img : ImageFile),
     image (smartphone_product x) = Some img → opens img → in_bounds img →
     ordinary_row st (smartphone_product x) →
     refusal st (Instance None x) = None →
     resolve "smartphone" (slug (smartphone_product x))
       (Product_save (Instance None x) st).2
     = (Ok (OSmartphone (next_pk (coreapp_smartphone st), x)),
        (Product_save (Instance None x) st).2)).
Proof.
  split; intros x img Himg Hopen Hin _ Hok.
  - assert (∀ r, r ∈ coreapp_notebook st →
                 slug (notebook_product r.2) ≠ slug (notebook_product x))
      as Hfresh.
    { intros r Hr.
      apply (product_refusal_fresh st _ _ (r.1, notebook_product r.2) Hok).
      by apply (list_elem_of_fmap_2 (λ r, (r.1, notebook_product r.2))). }
    rewrite (Product_save_new x img st);
      [|exact Himg|exact Hopen|exact Hin|exact Hok]. cbn [snd].
    rewrite resolve_run.
    change (CT_MODEL_MODEL_CLASS !! "notebook") with (Some NoteBookClass).
    cbn [class_objects]. unfold objects_all. run.
    rewrite get_object_run. rewrite get_set_table.
    rewrite fmap_app, List.filter_app.
    rewrite (filter_missing notebook_product ONoteBook) by done.
    cbn. rewrite bool_decide_true by done. reflexivity.
  - assert (∀ r, r ∈ coreapp_smartphone st →
                 slug (smartphone_product r.2) ≠ slug (smartphone_product x))
      as Hfresh.
    { intros r Hr.
      apply (product_refusal_fresh st _ _ (r.1, smartphone_product r.2) Hok).
      by apply (list_elem_of_fmap_2 (λ r, (r.1, smartphone_product r.2))). }
    rewrite (Product_save_new x img st);
      [|exact Himg|exact Hopen|exact Hin|exact Hok]. cbn [snd].
    rewrite resolve_run.
    change (CT_MODEL_MODEL_CLASS !! "smartphone") with (Some SmartphoneClass).
    cbn [class_objects]. unfold objects_all. run.
    rewrite get_object_run. rewrite get_set_table.
    rewrite fmap_app, List.filter_app.
    rewrite (filter_missing smartphone_product OSmartphone) by done.
    cbn. rewrite bool_decide_true by done. reflexivity.
Qed.

(** X3: a notebook saved for the first time, with an image [Image.open]
    returns and within the bounds and a row the database does not
    refuse, heads the latest notebooks: the main-page query for
    "notebook" returns it first, followed by the four most recent of the
    notebooks stored before. *)
Theorem saved_notebook_is_latest (st : Store) (x : NoteBook) (img : ImageFile) :
  registry_ok st → image (notebook_product x) = Some img → opens img →
  in_bounds img → ordinary_row st (notebook_product x) →
  refusal st (Instance None x) = None →
  (get_products_for_main_page ["notebook"] ∅
     (Product_save (Instance None x) st).2).1
  = Ok (ONoteBook (next_pk (coreapp_notebook st), x)
        :: (ONoteBook <$> slice 4 (order_by_desc_id (coreapp_notebook st)))).
Proof.
  intros Hok Himg Hopen Hin _ Hdb.
  rewrite (Product_save_new x img st);
    [|exact Himg|exact Hopen|exact Hin|exact Hdb]. cbn [snd].
  set (st' := set_table _ st).
  assert (registry_ok st') as Hok' by exact Hok.
  destruct (selected_type_tag st' "notebook" Hok') as [k Hk]; [by left|].
  unfold get_products_for_main_page, objects_filter. run.
  cbn [get_table ContentType_Model]. fold (selected st' ["notebook"]).
  rewrite Hk.
  rewrite extend_with_latest_products by (constructor; [by left|constructor]).
  cbv beta iota. rewrite lookup_empty. cbn [fst]. f_equal.
  cbn. rewrite app_nil_r. unfold latest_notebooks, st'.
  cbn [coreapp_notebook set_table NoteBook_Model get_table].
  unfold order_by_desc_id.
  change (foldr (insert_desc fst) []) with (sorted_reverse (A:=Z * NoteBook) fst).
  rewrite sorted_reverse_snoc_max.
  - reflexivity.
  - intros r Hr. simpl. by apply next_pk_gt.
Qed.

(** ** The main page, whatever is asked for *)

Lemma latest_of_class_run (c : ModelClass) (st : Store) :
  ∃ l, latest_of_class c st = (Ok l, st) ∧ (length l ≤ 5)%nat.
Proof.
  destruct c; cbn [latest_of_class]; unfold objects_all; run;
    eexists; (split; [reflexivity|]);
    rewrite length_fmap; unfold slice; rewrite length_take; lia.
Qed.

Lemma extend_with_latest_run (cts : table ContentType) (acc : list Obj)
    (st : Store) :
  (∃ e, extend_with_latest cts acc st = (Raise e, st)) ∨
  (∃ l, extend_with_latest cts acc st = (Ok (acc ++ l), st) ∧
        (length l ≤ 5 * length cts)%nat).
Proof.
  revert acc. induction cts as [|ct cts IH]; intros acc; simpl.
  - right. exists []. rewrite app_nil_r. split; [done|simpl; lia].
  - destruct (model_class ct.2) as [c|]; [|left; by eexists].
    destruct (latest_of_class_run c st) as (l & Hl & Hlen). run. rewrite Hl.
    destruct (IH (acc ++ l)) as [[e ->] | (l' & -> & Hlen')].
    + left. by eexists.
    + right. exists (l ++ l'). rewrite app_assoc. split; [done|].
      rewrite length_app. simpl. lia.
Qed.

Lemma named_content_type (st : Store) (w : string) :
  List.filter (λ r : Z * ContentType, String.eqb (model r.2) w)
    (django_content_type st) ≠ []
  ↔ w ∈ model <$> (django_content_type st).*2.
Proof.
  rewrite <- list_fmap_compose. split.
  - intros Hne. destruct (List.filter _ _) as [|r l] eqn:E; [done|].
    assert (r ∈ List.filter (λ r : Z * ContentType, String.eqb (model r.2) w)
                  (django_content_type st)) as Hr by (rewrite E; left).
    apply elem_of_List_filter in Hr as [Hr Hw]. apply String.eqb_eq in Hw.
    apply list_elem_of_fmap. exists r. by split.
  - intros (r & -> & Hr)%list_elem_of_fmap Hnil.
    assert (r ∈ List.filter (λ r' : Z * ContentType, String.eqb (model r'.2) ((model ∘ snd) r))
                  (django_content_type st)) as Hin.
    { apply elem_of_List_filter. split; [done|]. apply String.eqb_refl. }
    rewrite Hnil in Hin. by apply elem_of_nil in Hin.
Qed.

Lemma main_page_run (st : Store) (args : list string)
    (kwargs : gmap string string) :
  get_products_for_main_page args kwargs st =
  match extend_with_latest (selected st args) [] st with
  | (Ok products, st') =>
      (Ok (match reorders st' args kwargs with
           | Some w => prefix_first w products
           | None => products
           end), st')
  | (Raise e, st') => (Raise e, st')
  end.
Proof.
  unfold get_products_for_main_page, objects_filter. run.
  cbn [get_table ContentType_Model]. fold (selected st args).
  destruct (extend_with_latest _ _ _) as [[products|e] st']; [|done].
  unfold reorders. destruct (kwargs !! "with_respect_to") as [w|]; [|done].
  destruct (truthy (Some w)); [|done]. cbn [andb get_table ContentType_Model].
  rewrite (bool_decide_ext _ _ (named_content_type st' w)).
  case_bool_decide; [|done]. cbn [andb].
  destruct (contains args w); [|done].
  by rewrite sorted_reverse_bool.
Qed.

Lemma main_page_state (st : Store) (args : list string)
    (kwargs : gmap string string) :
  (get_products_for_main_page args kwargs st).2 = st.
Proof.
  rewrite main_page_run.
  by destruct (extend_with_latest_run (selected st args) [] st)
    as [[e ->] | (l & -> & _)].
Qed.

Lemma reorders_empty st args : reorders st args ∅ = None.
Proof. unfold reorders. by rewrite lookup_empty. Qed.

(** X4: [with_respect_to] changes nothing but the order.  The query never
    writes; it raises exactly when the query without keyword arguments
    does; and its result is that query's result, moved into two blocks
    when [with_respect_to] is not empty, names a content type and is
    among [args]: first the objects whose model name starts with it,
    then the others, each block in its old order. *)
Theorem main_page_reordering (st : Store) (args : list string)
    (kwargs : gmap string string) :
  (get_products_for_main_page args kwargs st).2 = st ∧
  match (get_products_for_main_page args ∅ st).1 with
  | Ok products =>
      (get_products_for_main_page args kwargs st).1 =
        Ok (match reorders st args kwargs with
            | Some w => prefix_first w products
            | None => products
            end)
  | Raise e => (get_products_for_main_page args kwargs st).1 = Raise e
  end.
Proof.
  rewrite !main_page_run.
  destruct (extend_with_latest_run (selected st args) [] st)
    as [[e ->] | (l & -> & _)]; rewrite ?reorders_empty; cbn [fst snd]; done.
Qed.

Lemma prefix_first_perm w l : prefix_first w l ≡ₚ l.
Proof.
  unfold prefix_first. induction l as [|x l IH]; [done|]. cbn [List.filter].
  destruct (startswith _ w); cbn [negb app].
  - by rewrite IH.
  - rewrite <- Permutation_middle. by rewrite IH.
Qed.

(** X5: whatever the arguments, a result of the main-page query is a
    permutation of the result without keyword arguments and has at most
    five objects per content type selected by [args]. *)
Theorem main_page_bound (st : Store) (args : list string)
    (kwargs : gmap string string) (l : list Obj) :
  (get_products_for_main_page args kwargs st).1 = Ok l →
  ∃ l0, (get_products_for_main_page args ∅ st).1 = Ok l0 ∧ l ≡ₚ l0 ∧
        (length l ≤ 5 * length (selected st args))%nat.
Proof.
  rewrite !main_page_run.
  destruct (extend_with_latest_run (selected st args) [] st)
    as [[e ->] | (l0 & -> & Hlen)]; rewrite ?reorders_empty; cbn [fst snd];
    [done|].
  intros [= <-]. exists l0.
  split; [done|]. destruct (reorders st args kwargs) as [w|].
  - split; [apply prefix_first_perm|]. by rewrite prefix_first_perm.
  - done.
Qed.

(** Asking for carts first also moves cart lines forward: "cartproduct"
    starts with "cart". *)
Example main_page_cart_prefix :
  (λ x, (meta_model_name (class_of x), obj_pk x)) <$>
    default []
      (match (get_products_for_main_page ["cart"; "cartproduct"; "category"]
                cart_first cart_listing_shop).1 with
       | Ok l => Some l
       | Raise _ => None
       end)
  = [("cartproduct", 5); ("cart", 2); ("cart", 1); ("category", 2);
     ("category", 1)].
Proof. vm_compute. reflexivity. Qed.

Lemma main_page_bound_witness :
  ∃ l0, (get_products_for_main_page ["cart"; "cartproduct"; "category"] ∅
           cart_listing_shop).1 = Ok l0 ∧
        [OCartProduct (5, a_line); OCart (2, a_cart true);
         OCart (1, a_cart false); OCategory (2, smartphones_category);
         OCategory (1, notebooks_category)] ≡ₚ l0 ∧
        (5 ≤ 5 * length (selected cart_listing_shop
                           ["cart"; "cartproduct"; "category"]))%nat.
Proof.
  apply (main_page_bound cart_listing_shop ["cart"; "cartproduct"; "category"]
           cart_first).
  vm_compute. reflexivity.
Defined.

(** ** The sidebar and the page views *)

Lemma sidebar_entries_unknown_name (st : Store) (cats : table Category)
    (r : Z * Category) :
  r ∈ cats → ¬ known_name (name r.2) →
  ∃ r', r' ∈ cats ∧ ¬ known_name (name r'.2) ∧
        mapM_result sidebar_entry (annotated st <$> cats)
        = Raise (KeyError (name r'.2)).
Proof.
  induction cats as [|r0 cats IH]; [by intros ?%elem_of_nil|].
  intros Hin Hr. rewrite fmap_cons. cbn [mapM_result].
  destruct (known_name_dec (name r0.2)) as [Hk|Hk].
  - rewrite sidebar_entry_known by done.
    apply elem_of_cons in Hin as [-> | Hin]; [done|].
    destruct (IH Hin Hr) as (r' & Hr' & Hunknown & ->).
    exists r'. split; [by right|done].
  - rewrite sidebar_entry_unknown by done. exists r0. split; [by left|done].
Qed.

(** X6: when some category has a name that is neither 'Ноутбуки' nor
    'Смартфоны', the sidebar operation raises [KeyError] and writes
    nothing, and the missing key is the name of such a category: of the
    one the database hands out first, so of that category when no other
    name is unknown. *)
Theorem sidebar_unknown_name (st : Store) (r : Z * Category) :
  r ∈ coreapp_category st → ¬ known_name (name r.2) →
  (∃ r', r' ∈ coreapp_category st ∧ ¬ known_name (name r'.2) ∧
         get_categories_for_left_sidebar st
         = (Raise (KeyError (name r'.2)), st)) ∧
  ((∀ r', r' ∈ coreapp_category st → ¬ known_name (name r'.2) →
          name r'.2 = name r.2) →
   get_categories_for_left_sidebar st = (Raise (KeyError (name r.2)), st)).
Proof.
  intros Hr Hunknown. rewrite sidebar_run.
  rewrite <- scan_categories_perm in Hr.
  destruct (sidebar_entries_unknown_name st _ r Hr Hunknown)
    as (r' & Hr' & Hunknown' & ->).
  rewrite scan_categories_perm in Hr'. split.
  - by exists r'.
  - intros Hone. by rewrite (Hone r').
Qed.

Lemma sidebar_state (st : Store) : (get_categories_for_left_sidebar st).2 = st.
Proof. by rewrite sidebar_run. Qed.

(** X7: the sidebar operation returns a list exactly when every category
    has one of the two names, and the list then has one entry per
    category, with the category's name and slug and the count its name
    selects; the order of the entries is the database's. *)
Theorem sidebar_succeeds_iff (st : Store) :
  ((∃ l, (get_categories_for_left_sidebar st).1 = Ok l) ↔
   Forall (λ r, known_name (name r.2)) (coreapp_category st)) ∧
  (∀ l, (get_categories_for_left_sidebar st).1 = Ok l →
        l ≡ₚ sidebar_row st <$> coreapp_category st).
Proof.
  assert (∀ l, (get_categories_for_left_sidebar st).1 = Ok l →
               Forall (λ r, known_name (name r.2)) (coreapp_category st))
    as Hknown.
  { intros l Hl.
    destruct (Forall_Exists_dec (λ r : Z * Category, known_name (name r.2))
                (λ r, ¬ known_name (name r.2))
                (λ r, known_name_dec (name r.2)) (coreapp_category st))
      as [Hall | Hex]; [done|].
    apply Exists_exists in Hex as (r & Hr & Hunknown).
    rewrite <- scan_categories_perm in Hr. rewrite sidebar_run in Hl.
    destruct (sidebar_entries_unknown st _ r Hr Hunknown) as [k Hk].
    cbn [fst] in Hl. congruence. }
  split.
  - split; [intros [l Hl]; by apply (Hknown l)|].
    intros (entries & -> & _)%sidebar_known. by exists entries.
  - intros l Hl.
    destruct (sidebar_known st (Hknown l Hl)) as (entries & Hrun & Hperm).
    rewrite Hrun in Hl. cbn [fst] in Hl. congruence.
Qed.

Lemma objects_get_run {A} `{Model A} (p : Z * A → bool) (st : Store) :
  objects_get A p st = (get_one A (List.filter p (get_table st)), st).
Proof. unfold objects_get, objects_filter. by run. Qed.

(** X8: for a user with exactly one customer row, whose customer owns
    exactly one cart, ordered or not, and with every category under one
    of the two names, [CartView.get] renders "cart.html" with that cart
    and the sidebar entries, one per category in the order the database
    hands the categories out, and does not write. *)
Theorem CartView_get_shows_the_cart (request : HttpRequest) (st : Store)
    (customer : Z * Customer) (cart : Z * Cart) :
  customers_of st (request_user request) = [customer] →
  carts_of st customer.1 = [cart] →
  Forall (λ r, known_name (name r.2)) (coreapp_category st) →
  ∃ entries,
    CartView_get request st =
      (Ok (render "cart.html"
             {[ "cart" := CObj (OCart cart);
                "categories" := CDicts entries ]}),
       st) ∧
    entries ≡ₚ sidebar_row st <$> coreapp_category st.
Proof.
  intros Hcustomer Hcart Hknown. unfold CartView_get. run.
  rewrite !objects_get_run. cbn [get_table Customer_Model].
  fold (customers_of st (request_user request)). rewrite Hcustomer.
  cbn [get_one]. rewrite objects_get_run. cbn [get_table Cart_Model].
  fold (carts_of st customer.1). rewrite Hcart. cbn [get_one].
  destruct (sidebar_known st Hknown) as (entries & -> & Hperm).
  by exists entries.
Qed.

Lemma BaseView_get_state (request : HttpRequest) (st : Store) :
  (BaseView_get request st).2 = st.
Proof.
  unfold BaseView_get. run. rewrite sidebar_run.
  destruct (mapM_result _ _); [|done].
  pose proof (main_page_state st ["notebook"; "smartphone"] ∅) as Hst.
  destruct (get_products_for_main_page _ _ st) as [[products|e] st'];
    cbn [snd] in Hst; subst st'; [|done].
  rewrite objects_get_run. destruct (get_one Customer _); [|done].
  rewrite objects_get_run. by destruct (get_one Cart _).
Qed.

Lemma CartView_get_state (request : HttpRequest) (st : Store) :
  (CartView_get request st).2 = st.
Proof.
  unfold CartView_get. run.
  rewrite objects_get_run. destruct (get_one Customer _); [|done].
  rewrite objects_get_run. destruct (get_one Cart _); [|done].
  rewrite sidebar_run. by destruct (mapM_result _ _).
Qed.

(** X9: the two page views fail in different orders.  For a user without
    a customer row, in a shop with a category of another name,
    [CartView.get] raises [Customer.DoesNotExist], the customer being
    looked up first, while [BaseView.get] raises [KeyError], the sidebar
    being computed first. *)
Theorem page_views_error_order (request : HttpRequest) (st : Store)
    (r : Z * Category) :
  customers_of st (request_user request) = [] →
  r ∈ coreapp_category st → ¬ known_name (name r.2) →
  CartView_get request st = (Raise (DoesNotExist "customer"), st) ∧
  ∃ k, BaseView_get request st = (Raise (KeyError k), st).
Proof.
  intros Hnone Hr Hunknown. split.
  - unfold CartView_get. run. rewrite objects_get_run.
    cbn [get_table Customer_Model].
    fold (customers_of st (request_user request)). by rewrite Hnone.
  - unfold BaseView_get. run. rewrite sidebar_run.
    rewrite <- scan_categories_perm in Hr.
    destruct (sidebar_entries_unknown st _ r Hr Hunknown) as [k ->].
    by exists k.
Qed.

(** ** Lookups of the two product views *)

Lemma CT_MODEL_MODEL_CLASS_cases (tag : string) (c : ModelClass) :
  CT_MODEL_MODEL_CLASS !! tag = Some c ↔
  tag = "notebook" ∧ c = NoteBookClass ∨
  tag = "smartphone" ∧ c = SmartphoneClass.
Proof.
  unfold CT_MODEL_MODEL_CLASS. split.
  - intros Hc. destruct (decide (tag = "notebook")) as [->|Hn].
    + rewrite lookup_insert_eq in Hc. left. split; congruence.
    + rewrite lookup_insert_ne in Hc by done.
      destruct (decide (tag = "smartphone")) as [->|Hs].
      * rewrite lookup_singleton_eq in Hc. right. split; congruence.
      * by rewrite lookup_singleton_ne in Hc.
  - intros [[-> ->] | [-> ->]]; reflexivity.
Qed.

Lemma class_objects_run (c : ModelClass) (st : Store) :
  class_objects c st = (Ok (objects_of st c), st).
Proof. by destruct c. Qed.

Lemma resolve_with_slug (st : Store) (tag s : string) :
  resolve tag s st =
  match CT_MODEL_MODEL_CLASS !! tag with
  | None => (Raise (KeyError tag), st)
  | Some c =>
      match with_slug st c s with
      | [] => (Raise Http404, st)
      | [o] => (Ok o, st)
      | _ :: _ :: _ => (Raise (MultipleObjectsReturned (meta_model_name c)), st)
      end
  end.
Proof.
  rewrite resolve_run. destruct (CT_MODEL_MODEL_CLASS !! tag) as [c|]; [|done].
  rewrite class_objects_run. by rewrite get_object_run.
Qed.

Section GetOrCreate.
Context {A : Type} `{ProductModel A} (wrap : Z * A → Obj).
Hypothesis wrap_slug : ∀ r, obj_slug (wrap r) = Some (slug (product r.2)).
Hypothesis bare : ∀ s, product (from_slug s) = bare_product s.

Lemma Product_get_or_create_run (s : string) (st : Store) :
  Product_get_or_create A wrap (Some s) st =
  match List.filter (λ o, bool_decide (obj_slug o = Some s))
          (wrap <$> (get_table st : list (Z * A))) with
  | [] => (Raise ValueError, st)
  | [o] => (Ok (o, false), st)
  | _ :: _ :: _ => (Raise (MultipleObjectsReturned (model_name A)), st)
  end.
Proof.
  unfold Product_get_or_create, objects_filter. run.
  rewrite List_filter_fmap.
  rewrite (List_filter_ext_elem
             (λ x, bool_decide (obj_slug (wrap x) = Some s))
             (λ r, bool_decide (Some (slug (product r.2)) = Some s)))
    by (intros x _; by rewrite wrap_slug).
  destruct (List.filter _ _) as [|r [|r' rows]]; try done.
  unfold Product_save. cbn [fields default]. rewrite bare.
  cbn [image bare_product Image_open]. by run.
Qed.
End GetOrCreate.

Lemma get_or_create_product (c : ModelClass) (s : string) (st : Store) :
  c = NoteBookClass ∨ c = SmartphoneClass →
  get_or_create c (Some s) st =
  match with_slug st c s with
  | [] => (Raise ValueError, st)
  | [o] => (Ok (o, false), st)
  | _ :: _ :: _ => (Raise (MultipleObjectsReturned (meta_model_name c)), st)
  end.
Proof.
  intros [-> | ->]; cbn [get_or_create];
    by rewrite Product_get_or_create_run.
Qed.

(** X10: an object [resolve] returns is a stored object of the class the
    tag names, with the slug asked for; and [get_or_create], the lookup
    of [AddToCartView.get], returns the same object for that class and
    slug, without creating anything. *)
Theorem resolve_sound (st : Store) (tag s : string) (o : Obj) :
  (resolve tag s st).1 = Ok o →
  tag ∈ type_tags ∧ meta_model_name (class_of o) = tag ∧
  obj_slug o = Some s ∧ o ∈ objects_of st (class_of o) ∧
  get_or_create (class_of o) (Some s) st = (Ok (o, false), st).
Proof.
  rewrite resolve_with_slug.
  destruct (CT_MODEL_MODEL_CLASS !! tag) as [c|] eqn:Hc; [|done].
  destruct (with_slug st c s) as [|o' [|o'' l]] eqn:Hs; try done.
  cbn [fst]. intros [= ->].
  assert (o ∈ with_slug st c s) as Ho by (rewrite Hs; left).
  apply elem_of_List_filter in Ho as [Ho Hslug].
  apply bool_decide_eq_true in Hslug.
  assert (class_of o = c) as Hclass.
  { apply CT_MODEL_MODEL_CLASS_cases in Hc as [[_ ->] | [_ ->]];
      cbn [objects_of] in Ho; by apply list_elem_of_fmap in Ho as (? & -> & _). }
  subst c. apply CT_MODEL_MODEL_CLASS_cases in Hc as Hc'.
  split; [destruct Hc' as [[-> _] | [-> _]]; [left | right; left]|].
  split; [destruct Hc' as [[-> ->] | [-> ->]]; reflexivity|].
  split; [done|]. split; [done|].
  rewrite get_or_create_product by (destruct Hc' as [[_ ->] | [_ ->]]; auto).
  by rewrite Hs.
Qed.


Lemma AddToCartView_get_run (request : HttpRequest) (kwargs : gmap string string)
    (st : Store) (customer : Z * Customer) (cart : Z * Cart)
    (ct : Z * ContentType) (c : ModelClass) :
  customers_of st (request_user request) = [customer] →
  active_carts_of st customer.1 = [cart] →
  content_types_of st (kwargs !! "ct_model") = [ct] →
  model_class ct.2 = Some c →
  AddToCartView_get request kwargs st =
  match get_or_create c (kwargs !! "slug") st with
  | (Ok _, st') =>
      match get_one Customer (customers_with_pk st' (owner cart.2)) with
      | Ok _ => (Raise (NameError "product_id"), st')
      | Raise e => (Raise e, st')
      end
  | (Raise e, st') => (Raise e, st')
  end.
Proof.
  intros Hcustomer Hcart Hct Hc. unfold AddToCartView_get. run.
  rewrite objects_get_run. cbn [get_table Customer_Model].
  fold (customers_of st (request_user request)). rewrite Hcustomer.
  cbn [get_one]. rewrite objects_get_run. cbn [get_table Cart_Model].
  fold (active_carts_of st customer.1). rewrite Hcart. cbn [get_one].
  rewrite objects_get_run. cbn [get_table ContentType_Model].
  fold (content_types_of st (kwargs !! "ct_model")). rewrite Hct.
  cbn [get_one]. rewrite Hc.
  destruct (get_or_create c _ st) as [[product|e] st']; [|done].
  rewrite objects_get_run. cbn [get_table Customer_Model].
  fold (customers_with_pk st' (owner cart.2)).
  by destruct (get_one Customer _).
Qed.

(** X11: with the customer, the active cart and the content type of a
    product tag in place, [AddToCartView.get] raises [ValueError] and
    writes nothing when no product of the class has the slug (the record
    made from the slug alone has no image to open), and raises
    [NameError] at [product_id], writing nothing, when exactly one
    has. *)
Theorem AddToCartView_get_product_errors (request : HttpRequest) (st : Store)
    (tag s : string) (customer : Z * Customer) (cart : Z * Cart) (k : Z)
    (c : ModelClass) :
  customers_of st (request_user request) = [customer] →
  active_carts_of st customer.1 = [cart] →
  content_types_of st (Some tag)
    = [(k, {| app_label := "coreapp"; model := tag |})] →
  CT_MODEL_MODEL_CLASS !! tag = Some c →
  (with_slug st c s = [] →
   AddToCartView_get request {[ "ct_model" := tag; "slug" := s ]} st
     = (Raise ValueError, st)) ∧
  (∀ o owner_row, with_slug st c s = [o] →
     customers_with_pk st (owner cart.2) = [owner_row] →
     AddToCartView_get request {[ "ct_model" := tag; "slug" := s ]} st
       = (Raise (NameError "product_id"), st)).
Proof.
  intros Hcustomer Hcart Hct Hc.
  assert (model_class {| app_label := "coreapp"; model := tag |} = Some c
          ∧ (c = NoteBookClass ∨ c = SmartphoneClass)) as [Hclass Hprod].
  { apply CT_MODEL_MODEL_CLASS_cases in Hc as [[-> ->] | [-> ->]]; auto. }
  rewrite (AddToCartView_get_run request _ st customer cart
             (k, {| app_label := "coreapp"; model := tag |}) c);
    try done.
  rewrite lookup_insert_ne by done. rewrite lookup_singleton_eq.
  rewrite get_or_create_product by done. split.
  - by intros ->.
  - intros o owner_row -> Howner. by rewrite Howner.
Qed.

(** ** What adding to the cart writes *)

Lemma grown_refl st : grown st st.
Proof.
  split; [by repeat split|]. exists [].
  split; [by rewrite app_nil_r|simpl; lia].
Qed.

Lemma get_or_create_grown (c : ModelClass) (s : option string) (st : Store) :
  grown st (get_or_create c s st).2.
Proof.
  destruct c; cbn [get_or_create]; try apply grown_refl.
  - rewrite Product_get_or_create_state by done. apply grown_refl.
  - rewrite Product_get_or_create_state by done. apply grown_refl.
  - unfold Category_get_or_create, objects_filter. run.
    destruct (List.filter _ _) as [|r [|r' rows]]; try apply grown_refl.
    destruct s as [s|]; [|apply grown_refl].
    rewrite Model_save_run. destruct (refusal _ _); [apply grown_refl|].
    split; [by repeat split|].
    eexists. split; [reflexivity|]. simpl. lia.
Qed.

(** X12: [AddToCartView.get] never writes a product, a customer, a
    cart, a cart line, a link or a content type, whatever the request:
    the store it leaves differs from the one it found by at most one
    category, added at the end of the table. *)
Theorem AddToCartView_get_writes_categories_only (request : HttpRequest)
    (kwargs : gmap string string) (st : Store) :
  same_but_categories st (AddToCartView_get request kwargs st).2 ∧
  ∃ extra,
    coreapp_category (AddToCartView_get request kwargs st).2
      = coreapp_category st ++ extra ∧
    (length extra ≤ 1)%nat.
Proof.
  change (grown st (AddToCartView_get request kwargs st).2).
  unfold AddToCartView_get. run.
  rewrite objects_get_run. destruct (get_one Customer _) as [customer|e];
    [|apply grown_refl].
  rewrite objects_get_run. destruct (get_one Cart _) as [cart|e];
    [|apply grown_refl].
  rewrite objects_get_run. destruct (get_one ContentType _) as [ct|e];
    [|apply grown_refl].
  destruct (model_class ct.2) as [c|]; [|apply grown_refl].
  pose proof (get_or_create_grown c (kwargs !! "slug") st) as Hg.
  destruct (get_or_create c _ st) as [[product|e] st1]; [|exact Hg].
  rewrite objects_get_run. destruct (get_one Customer _) as [o|e]; exact Hg.
Qed.

Lemma taken_fresh {A} (f : A → string) (t : list (Z * A)) (key : option Z)
    (s : string) :
  (∀ r, r ∈ t → f r.2 ≠ s) → taken f t key s = false.
Proof.
  intros Hfresh. unfold taken. apply not_true_is_false.
  intros (r & Hr%list_elem_of_In & Hs)%existsb_exists.
  apply andb_prop in Hs as [_ Hs%String.eqb_eq]. by apply (Hfresh r).
Qed.

Lemma Category_get_or_create_new (s : string) (st : Store) :
  (∀ r, r ∈ coreapp_category st → category_slug r.2 ≠ s) →
  get_or_create CategoryClass (Some s) st =
  (Ok (OCategory (next_pk (coreapp_category st), unnamed_category s), true),
   with_categories
     (coreapp_category st ++ [(next_pk (coreapp_category st), unnamed_category s)])
     st).
Proof.
  intros Hfresh. cbn [get_or_create]. unfold Category_get_or_create, objects_filter.
  run. cbn [get_table Category_Model]. rewrite List_filter_none.
  - rewrite Model_save_run. cbn [refusal Category_Model pk fields category_slug].
    by rewrite taken_fresh.
  - intros r Hr. apply bool_decide_eq_false. intros [=]. by apply (Hfresh r).
Qed.

(** X13: a request to add to the cart with the tag "category" and a slug
    no category has stores a category with that slug and the empty name
    (the content type of [Category] being registered); from then on
    [BaseView.get] raises [KeyError] for every request. *)
Theorem AddToCartView_get_can_add_a_category (request request' : HttpRequest)
    (st : Store) (s : string) (customer : Z * Customer) (cart : Z * Cart)
    (k : Z) :
  customers_of st (request_user request) = [customer] →
  active_carts_of st customer.1 = [cart] →
  content_types_of st (Some "category")
    = [(k, {| app_label := "coreapp"; model := "category" |})] →
  (∀ r, r ∈ coreapp_category st → category_slug r.2 ≠ s) →
  (AddToCartView_get request {[ "ct_model" := "category"; "slug" := s ]} st).2
    = with_categories
        (coreapp_category st
           ++ [(next_pk (coreapp_category st), unnamed_category s)]) st ∧
  ∃ key,
    BaseView_get request'
      (AddToCartView_get request {[ "ct_model" := "category"; "slug" := s ]} st).2
    = (Raise (KeyError key),
       (AddToCartView_get request {[ "ct_model" := "category"; "slug" := s ]} st).2).
Proof.
  intros Hcustomer Hcart Hct Hfresh.
  rewrite (AddToCartView_get_run request _ st customer cart
             (k, {| app_label := "coreapp"; model := "category" |})
             CategoryClass); try done.
  rewrite lookup_insert_ne by done. rewrite lookup_singleton_eq.
  rewrite Category_get_or_create_new by done.
  set (st' := with_categories _ st).
  assert (∀ (r : result (Z * Customer)),
    (match r with
     | Ok _ => (Raise (NameError "product_id") : result HttpResponse, st')
     | Raise e => (Raise e, st')
     end).2 = st') as Hst by (by intros [?|?]).
  rewrite Hst. split; [done|].
  unfold BaseView_get. run. rewrite sidebar_run.
  destruct (sidebar_entries_unknown st' (scan_categories st')
              (next_pk (coreapp_category st), unnamed_category s))
    as [key ->].
  - rewrite scan_categories_perm.
    unfold st', with_categories. cbn. apply elem_of_app. right. left.
  - intros [Hn | Hn]; discriminate Hn.
  - by exists key.
Qed.

(** X14: the link of a stored product leads back to it: the keyword
    arguments [get_absolute_url] hands to [reverse], under the view name
    "product_detail", make [ProductDetailView] show that very product,
    slugs being unique within the class. *)
Theorem get_absolute_url_round_trip (st : Store) :
  (∀ r, r ∈ coreapp_notebook st →
        unique_slugs notebook_product (coreapp_notebook st) →
        ∃ url, NoteBook_get_absolute_url r = Ok url ∧
               viewname url = "product_detail" ∧
               ProductDetailView_object (url_kwargs url) st
                 = (Ok (ONoteBook r), st)) ∧
  (∀ r, r ∈ coreapp_smartphone st →
        unique_slugs smartphone_product (coreapp_smartphone st) →
        ∃ url, Smartphone_get_absolute_url r = Ok url ∧
               viewname url = "product_detail" ∧
               ProductDetailView_object (url_kwargs url) st
                 = (Ok (OSmartphone r), st)).
Proof.
  split; intros r Hr Hu; eexists; (split; [reflexivity|]);
    (split; [reflexivity|]); cbn [url_kwargs meta_model_name class_of model_name
                                   NoteBook_Model Smartphone_Model].
  - change (ProductDetailView_object ?kw) with
      (resolve "notebook" (slug (notebook_product r.2))).
    rewrite resolve_with_slug.
    change (CT_MODEL_MODEL_CLASS !! "notebook") with (Some NoteBookClass).
    unfold with_slug. cbn [objects_of].
    by rewrite (filter_found notebook_product ONoteBook).
  - change (ProductDetailView_object ?kw) with
      (resolve "smartphone" (slug (smartphone_product r.2))).
    rewrite resolve_with_slug.
    change (CT_MODEL_MODEL_CLASS !! "smartphone") with (Some SmartphoneClass).
    unfold with_slug. cbn [objects_of].
    by rewrite (filter_found smartphone_product OSmartphone).
Qed.

(** ** The admin forms and the category page *)

Lemma offered_notebook (st : Store) (c : Z * Category) :
  c ∈ offered (NoteBookAdmin_formfield_for_foreignkey "category") st ↔
  c ∈ coreapp_category st ∧ category_slug c.2 = "notebooks".
Proof.
  unfold offered, NoteBookAdmin_formfield_for_foreignkey, objects_filter.
  rewrite String.eqb_refl. run. cbn [fst choices default get_table Category_Model]. unfold id.
  rewrite elem_of_List_filter. by rewrite String.eqb_eq.
Qed.

Lemma offered_smartphone (st : Store) (c : Z * Category) :
  c ∈ offered (SmartphoneAdmin_formfield_for_foreignkey "category") st ↔
  c ∈ coreapp_category st ∧ category_slug c.2 = "smartphones".
Proof.
  unfold offered, SmartphoneAdmin_formfield_for_foreignkey, objects_filter.
  rewrite String.eqb_refl. run. cbn [fst choices default get_table Category_Model]. unfold id.
  rewrite elem_of_List_filter. by rewrite String.eqb_eq.
Qed.

Lemma unique_slug_filter (cats : table Category) (s : string) :
  NoDup ((λ r, category_slug r.2) <$> cats) →
  (length (List.filter (λ r : Z * Category, String.eqb (category_slug r.2) s) cats)
   ≤ 1)%nat.
Proof.
  intros Hnd.
  destruct (List.filter _ cats) as [|c l] eqn:E; [simpl; lia|].
  assert (c ∈ List.filter (λ r : Z * Category, String.eqb (category_slug r.2) s) cats)
    as Hc by (rewrite E; left).
  apply elem_of_List_filter in Hc as [Hc Hs]. apply String.eqb_eq in Hs.
  rewrite (List_filter_unique (λ r : Z * Category, category_slug r.2) _ cats c)
    in E; [injection E as <-; simpl; lia|done|done|].
  intros y. rewrite String.eqb_eq. by rewrite Hs.
Qed.

(** X15: the two admin forms never offer the same category for the
    [category] field, each offers at most one when category slugs are
    unique, and for any other field both defer to [ModelAdmin]. *)
Theorem admin_choices_apart (st : Store) :
  (∀ c, c ∈ offered (NoteBookAdmin_formfield_for_foreignkey "category") st →
        c ∉ offered (SmartphoneAdmin_formfield_for_foreignkey "category") st) ∧
  (unique_category_slugs st →
   (length (offered (NoteBookAdmin_formfield_for_foreignkey "category") st)
    ≤ 1)%nat ∧
   (length (offered (SmartphoneAdmin_formfield_for_foreignkey "category") st)
    ≤ 1)%nat) ∧
  (∀ field_name, field_name ≠ "category" →
     NoteBookAdmin_formfield_for_foreignkey field_name st
       = (Ok (ModelAdmin_formfield field_name), st) ∧
     SmartphoneAdmin_formfield_for_foreignkey field_name st
       = (Ok (ModelAdmin_formfield field_name), st)).
Proof.
  split; [|split].
  - intros c [_ Hn]%offered_notebook [_ Hs]%offered_smartphone. congruence.
  - intros Hu. split; by apply unique_slug_filter.
  - intros f Hf. apply String.eqb_neq in Hf.
    unfold NoteBookAdmin_formfield_for_foreignkey,
      SmartphoneAdmin_formfield_for_foreignkey. by rewrite Hf.
Qed.

Lemma positive_count {A} (p : A → bool) (l : list A) :
  Z.of_nat (length (List.filter p l)) ≠ 0 → ∃ x, x ∈ l ∧ p x = true.
Proof.
  destruct (List.filter p l) as [|x l'] eqn:E; [done|]. intros _.
  exists x. apply elem_of_List_filter. rewrite E. left.
Qed.

Lemma filed_separately (st : Store) (k : Z) :
  filed_by_admin st → unique_pks (coreapp_category st) →
  notebooks_in st k = 0 ∨ smartphones_in st k = 0.
Proof.
  intros [Hnb Hsp] Hpk.
  destruct (decide (notebooks_in st k = 0)) as [|Hn]; [by left|].
  destruct (decide (smartphones_in st k = 0)) as [|Hs]; [by right|].
  exfalso.
  apply positive_count in Hn as (n & Hin & Hcat).
  apply positive_count in Hs as (s & His & Hcat').
  apply bool_decide_eq_true in Hcat, Hcat'.
  destruct (Hnb n Hin) as (c & Hc & [Hcin Hslug]%offered_notebook).
  destruct (Hsp s His) as (c' & Hc' & [Hcin' Hslug']%offered_smartphone).
  assert (c = c') as <-.
  { apply (NoDup_fmap_eq fst (coreapp_category st)); try done. congruence. }
  congruence.
Qed.

(** X16: when every notebook is filed under a category the notebook form
    offers and every smartphone under one the smartphone form offers,
    category keys being unique, no category holds both variants, and the
    two counts of the sidebar query are the exact numbers of notebooks
    and of smartphones of each category. *)
Theorem admin_filing_keeps_counts_exact (st : Store) (r : Z * Category) :
  filed_by_admin st → unique_pks (coreapp_category st) →
  annotated_values st (get_models_for_count ["notebook"; "smartphone"]) r
    = Ok (counted st r) ∧
  (notebooks_in st r.1 = 0 ∨ smartphones_in st r.1 = 0).
Proof.
  intros Hfiled Hpk. pose proof (filed_separately st r.1 Hfiled Hpk) as Hsep.
  split; [|done]. rewrite annotated_values_counts. unfold annotated, counted.
  assert (0 ≤ notebooks_in st r.1 ∧ 0 ≤ smartphones_in st r.1) as [? ?]
    by (unfold notebooks_in, smartphones_in; lia).
  do 2 f_equal.
  - f_equal. f_equal. destruct Hsep as [-> | ->]; lia.
  - f_equal. f_equal. f_equal. destruct Hsep as [-> | ->]; lia.
Qed.


(** ** Reading views do not write *)

(** X18: the sidebar operation, [CartView.get] and [BaseView.get] leave
    the store as they found it, whether they return or raise. *)
Theorem page_views_read_only (request : HttpRequest) (st : Store) :
  (get_categories_for_left_sidebar st).2 = st ∧
  (CartView_get request st).2 = st ∧
  (BaseView_get request st).2 = st.
Proof.
  split; [apply sidebar_state|].
  split; [apply CartView_get_state|apply BaseView_get_state].
Qed.

(** ** The properties at work *)


(** The first notebook of the iphone shop is found under key 1. *)
Lemma saved_product_round_trip_witness :
  resolve "notebook" "zenbook"
    (Product_save (new_notebook 500 600 204800) iphone_shop).2
  = (Ok (ONoteBook (1, notebook 1 "zenbook" (photo 500 600 204800))),
     (Product_save (new_notebook 500 600 204800) iphone_shop).2).
Proof.
  destruct (saved_product_round_trip iphone_shop) as [Hnotebook _].
  apply (Hnotebook (notebook 1 "zenbook" (photo 500 600 204800))
           (photo 500 600 204800)).
  - reflexivity.
  - unfold opens. simpl. lia.
  - unfold in_bounds. simpl. lia.
  - ordinary.
  - reflexivity.
Defined.

(** The eighth notebook of a shop with seven comes first, then notebooks
    7 to 4. *)
Lemma saved_notebook_is_latest_witness :
  (get_products_for_main_page ["notebook"] ∅
     (Product_save (new_notebook 500 600 204800) main_page_shop).2).1
  = Ok (ONoteBook (8, notebook 1 "zenbook" (photo 500 600 204800))
        :: (ONoteBook <$> slice 4 (order_by_desc_id seven_notebooks))).
Proof.
  apply (saved_notebook_is_latest main_page_shop
           (notebook 1 "zenbook" (photo 500 600 204800))
           (photo 500 600 204800)).
  - apply registry_ok_shop.
  - reflexivity.
  - unfold opens. simpl. lia.
  - unfold in_bounds. simpl. lia.
  - ordinary.
  - reflexivity.
Defined.

(** Of two unknown names one is reported; "Tablets" is, where it is the
    only one. *)
Lemma sidebar_unknown_name_witness :
  (∃ r', r' ∈ coreapp_category unknown_names_shop ∧
         ¬ known_name (name r'.2) ∧
         get_categories_for_left_sidebar unknown_names_shop
         = (Raise (KeyError (name r'.2)), unknown_names_shop)) ∧
  get_categories_for_left_sidebar tablets_shop
  = (Raise (KeyError "Tablets"), tablets_shop).
Proof.
  split.
  - destruct (sidebar_unknown_name unknown_names_shop (3, tablets_category))
      as [Hsome _]; [right; left|intros [Hn | Hn]; discriminate Hn|].
    exact Hsome.
  - destruct (sidebar_unknown_name tablets_shop (3, tablets_category))
      as [_ Hone]; [right; left|intros [Hn | Hn]; discriminate Hn|].
    apply Hone. intros r' [->|[->|Hnil]%elem_of_cons]%elem_of_cons Hunknown.
    + exfalso. apply Hunknown. by left.
    + reflexivity.
    + by apply elem_of_nil in Hnil.
Defined.

(** The customer whose only cart is ordered sees that cart. *)
Lemma CartView_get_shows_the_cart_witness :
  ∃ entries,
    CartView_get customer_request ordered_shop =
      (Ok (render "cart.html"
             {[ "cart" := CObj (OCart (1, a_cart true));
                "categories" := CDicts entries ]}),
       ordered_shop) ∧
    entries ≡ₚ sidebar_row ordered_shop <$> coreapp_category ordered_shop.
Proof.
  apply (CartView_get_shows_the_cart customer_request ordered_shop
           (1, {| user := 1; phone := "+7 700 000 00 00" |})
           (1, a_cart true)).
  - reflexivity.
  - reflexivity.
  - constructor; [by left|]. constructor; [by right|]. constructor.
Defined.

Lemma page_views_error_order_witness :
  CartView_get customer_request no_customer_shop
    = (Raise (DoesNotExist "customer"), no_customer_shop) ∧
  ∃ k, BaseView_get customer_request no_customer_shop
         = (Raise (KeyError k), no_customer_shop).
Proof.
  apply (page_views_error_order customer_request no_customer_shop
           (3, tablets_category)).
  - reflexivity.
  - right. left.
  - intros [Hn | Hn]; discriminate Hn.
Defined.

Lemma resolve_sound_witness :
  "smartphone" ∈ type_tags ∧
  meta_model_name (class_of (OSmartphone (1, smartphone 2 "iphone-11" 99900)))
    = "smartphone" ∧
  obj_slug (OSmartphone (1, smartphone 2 "iphone-11" 99900))
    = Some "iphone-11" ∧
  OSmartphone (1, smartphone 2 "iphone-11" 99900)
    ∈ objects_of iphone_shop SmartphoneClass ∧
  get_or_create SmartphoneClass (Some "iphone-11") iphone_shop
    = (Ok (OSmartphone (1, smartphone 2 "iphone-11" 99900), false),
       iphone_shop).
Proof.
  apply (resolve_sound iphone_shop "smartphone" "iphone-11"
           (OSmartphone (1, smartphone 2 "iphone-11" 99900))).
  vm_compute. reflexivity.
Defined.

(** Adding a phone the shop does not sell, and one it sells. *)
Lemma AddToCartView_get_product_errors_witness :
  AddToCartView_get customer_request add_nokia iphone_shop
    = (Raise ValueError, iphone_shop) ∧
  AddToCartView_get customer_request add_iphone iphone_shop
    = (Raise (NameError "product_id"), iphone_shop).
Proof.
  split.
  - destruct (AddToCartView_get_product_errors customer_request iphone_shop
                "smartphone" "nokia-3310"
                (1, {| user := 1; phone := "+7 700 000 00 00" |})
                (1, a_cart false) 9 SmartphoneClass) as [Hmissing _];
      [reflexivity|reflexivity|reflexivity|reflexivity|].
    apply Hmissing. reflexivity.
  - destruct (AddToCartView_get_product_errors customer_request iphone_shop
                "smartphone" "iphone-11"
                (1, {| user := 1; phone := "+7 700 000 00 00" |})
                (1, a_cart false) 9 SmartphoneClass) as [_ Hfound];
      [reflexivity|reflexivity|reflexivity|reflexivity|].
    apply (Hfound (OSmartphone (1, smartphone 2 "iphone-11" 99900))
             (1, {| user := 1; phone := "+7 700 000 00 00" |}));
      reflexivity.
Defined.

(** The request that adds the category "sale" to the iphone shop. *)
Lemma AddToCartView_get_can_add_a_category_witness :
  (AddToCartView_get customer_request add_category iphone_shop).2
    = with_categories (two_categories ++ [(3, unnamed_category "sale")])
        iphone_shop ∧
  ∃ key,
    BaseView_get customer_request
      (AddToCartView_get customer_request add_category iphone_shop).2
    = (Raise (KeyError key),
       (AddToCartView_get customer_request add_category iphone_shop).2).
Proof.
  apply (AddToCartView_get_can_add_a_category customer_request
           customer_request iphone_shop "sale"
           (1, {| user := 1; phone := "+7 700 000 00 00" |})
           (1, a_cart false) 7).
  - reflexivity.
  - reflexivity.
  - reflexivity.
  - intros r [-> | [-> | Hnil%elem_of_nil]%elem_of_cons]%elem_of_cons;
      [discriminate|discriminate|done].
Defined.

Lemma get_absolute_url_round_trip_witness :
  ∃ url,
    NoteBook_get_absolute_url
      (2, notebook 1 "macbook" (photo 600 800 204800)) = Ok url ∧
    viewname url = "product_detail" ∧
    ProductDetailView_object (url_kwargs url) stocked_shop
      = (Ok (ONoteBook (2, notebook 1 "macbook" (photo 600 800 204800))),
         stocked_shop).
Proof.
  destruct (get_absolute_url_round_trip stocked_shop) as [Hnotebook _].
  apply (Hnotebook (2, notebook 1 "macbook" (photo 600 800 204800))).
  - right. left.
  - apply (bool_decide_unpack _). reflexivity.
Defined.

Lemma admin_choices_apart_witness :
  ((1, notebooks_category)
     ∉ offered (SmartphoneAdmin_formfield_for_foreignkey "category")
         stocked_shop) ∧
  (length (offered (NoteBookAdmin_formfield_for_foreignkey "category")
             stocked_shop) ≤ 1)%nat ∧
  NoteBookAdmin_formfield_for_foreignkey "owner" stocked_shop
    = (Ok (ModelAdmin_formfield "owner"), stocked_shop).
Proof.
  destruct (admin_choices_apart stocked_shop) as (Hapart & Hone & Hother).
  split; [|split].
  - apply Hapart. left.
  - apply Hone. apply (bool_decide_unpack _). reflexivity.
  - apply Hother. discriminate.
Defined.

Lemma filed_by_admin_stocked_shop : filed_by_admin stocked_shop.
Proof.
  split.
  - intros r [-> | [-> | Hnil%elem_of_nil]%elem_of_cons]%elem_of_cons;
      [| |done]; exists (1, notebooks_category); (split; [reflexivity|left]).
  - intros r [-> | Hnil%elem_of_nil]%elem_of_cons; [|done].
    exists (2, smartphones_category). split; [reflexivity|left].
Defined.

(** In the shop stocked through the admin the notebooks category counts
    two notebooks and no smartphone. *)
Lemma admin_filing_keeps_counts_exact_witness :
  annotated_values stocked_shop
    (get_models_for_count ["notebook"; "smartphone"]) (1, notebooks_category)
    = Ok (counted stocked_shop (1, notebooks_category)) ∧
  (notebooks_in stocked_shop 1 = 0 ∨ smartphones_in stocked_shop 1 = 0).
Proof.
  apply (admin_filing_keeps_counts_exact stocked_shop (1, notebooks_category)).
  - apply filed_by_admin_stocked_shop.
  - apply (bool_decide_unpack _). reflexivity.
Defined.

